(** * authapi: API-key issuing and verification service

    Shallow embedding of [authapi/authapi.go] together with the [users]
    table of [authapi/migrations/1_create_users.up.sql].

    Go strings are byte sequences, modelled by [string] (one [ascii] per
    byte); [len] is [String.length].  Every endpoint is a function from the
    request, the per-request environment and the database to a result-or-error
    paired with the database afterwards. *)

From Stdlib Require Import String Ascii List Bool ZArith NArith Lia Arith.
From Stdlib.Strings Require Import Byte.
Import ListNotations.

Local Open Scope list_scope.
Local Open Scope string_scope.

(** ** encore.dev/beta/errs *)

Module errs.

Inductive ErrCode : Type :=
| InvalidArgument
| AlreadyExists
| Unauthenticated
| Internal.

Record Error : Type := mkError { Code : ErrCode; Message : string }.

Definition ErrCode_eqb (a b : ErrCode) : bool :=
  match a, b with
  | InvalidArgument, InvalidArgument
  | AlreadyExists, AlreadyExists
  | Unauthenticated, Unauthenticated
  | Internal, Internal => true
  | _, _ => false
  end.

End errs.

(** ** Package [strings] and [encoding/hex] *)

Module strings.

(** [strings.HasPrefix(s, prefix)] *)
Definition HasPrefix (s prefix : string) : bool := String.prefix prefix s.

(** [strings.Contains(s, substr)] *)
Fixpoint Contains (s substr : string) : bool :=
  String.prefix substr s
  || match s with
     | EmptyString => false
     | String _ s' => Contains s' substr
     end.

End strings.

Module hex.

Definition hextable : string := "0123456789abcdef".

Definition hexchar (n : N) : ascii :=
  match String.get (N.to_nat n) hextable with
  | Some c => c
  | None => "0"%char
  end.

(** [hex.EncodeToString]: two digits per byte, high nibble first. *)
Fixpoint EncodeToString (src : list byte) : string :=
  match src with
  | [] => EmptyString
  | v :: rest =>
      String (hexchar (N.shiftr (Byte.to_N v) 4))
        (String (hexchar (N.land (Byte.to_N v) 15))
           (EncodeToString rest))
  end.

(** [fromHexChar], restricted to the lower-case digits the encoder emits
    plus the upper-case ones the decoder of the Go library also accepts. *)
Definition fromHexChar (c : ascii) : option N :=
  let n := N_of_ascii c in
  if (48 <=? n)%N && (n <=? 57)%N then Some (n - 48)%N
  else if (97 <=? n)%N && (n <=? 102)%N then Some (n - 97 + 10)%N
  else if (65 <=? n)%N && (n <=? 70)%N then Some (n - 65 + 10)%N
  else None.

(** [hex.DecodeString] *)
Fixpoint DecodeString (s : string) : option (list byte) :=
  match s with
  | EmptyString => Some []
  | String _ EmptyString => None
  | String a (String b rest) =>
      match fromHexChar a, fromHexChar b, DecodeString rest with
      | Some hi, Some lo, Some bs =>
          match Byte.of_N (N.lor (N.shiftl hi 4) lo) with
          | Some v => Some (v :: bs)
          | None => None
          end
      | _, _, _ => None
      end
  end.

Definition is_hex_digit (c : ascii) : bool :=
  match fromHexChar c with Some _ => true | None => false end.

End hex.

(** ** Data model *)

(** [type User struct], one row of table [users]. *)
Record User : Type := mkUser {
  ID : Z;
  Email : string;
  Password : string;
  APIKey : string
}.

Record SignupParams : Type := mkSignupParams {
  sp_Email : string;
  sp_Password : string
}.

Record SignupResponse : Type := mkSignupResponse { sr_APIKey : string }.

Record LoginParams : Type := mkLoginParams {
  lp_Email : string;
  lp_Password : string
}.

Record LoginResponse : Type := mkLoginResponse { lr_APIKey : string }.

Record RegenerateKeyResponse : Type :=
  mkRegenerateKeyResponse { NewAPIKey : string }.

Record ProtectedParams : Type := mkProtectedParams { Data : string }.

Record ProtectedResponse : Type := mkProtectedResponse { pr_Message : string }.

(** ** encore.dev/storage/sqldb over the [users] table

    The table is the list of its rows in insertion order.  The schema
    declares [id BIGSERIAL PRIMARY KEY], [email TEXT UNIQUE NOT NULL] and
    [api_key TEXT UNIQUE NOT NULL]; the two unique constraints are enforced
    by the statements below, which fail instead of storing a duplicate.
    [trace] records every statement a handler hands to the database. *)

Module sqldb.

Inductive Stmt : Type :=
| InsertUser (email password api_key : string)
| SelectByEmail (email : string)
| UpdateAPIKey (api_key email : string)
| SelectByAPIKey (api_key : string).

Record DB : Type := mkDB {
  users : list User;
  users_id_seq : Z;
  trace : list Stmt
}.

Definition empty : DB := mkDB [] 1 [].

(** Errors a statement can return to the Go code. *)
Inductive DBError : Type :=
| ErrNoRows
| UniqueViolation (constraint : string)
| Fault (msg : string).

(** The [Error()] text of a database error (pgx formatting for the
    server-side violation). *)
Definition Error (e : DBError) : string :=
  match e with
  | ErrNoRows => "sql: no rows in result set"
  | UniqueViolation c =>
      "ERROR: duplicate key value violates unique constraint "
        ++ String (ascii_of_nat 34) (c ++ String (ascii_of_nat 34)
        " (SQLSTATE 23505)")
  | Fault msg => msg
  end.

Record ExecResult : Type := mkExecResult { RowsAffected : Z }.

Definition has_email (email : string) (u : User) : bool :=
  String.eqb (Email u) email.

Definition has_api_key (key : string) (u : User) : bool :=
  String.eqb (APIKey u) key.

Definition log (s : Stmt) (db : DB) : DB :=
  mkDB (users db) (users_id_seq db) (s :: trace db).

(** [INSERT INTO users (email, password, api_key) VALUES ($1, $2, $3)
     ON CONFLICT (email) DO NOTHING].
    [fault] is a failure of the connection or the server unrelated to the
    table contents; the statement then changes nothing.  The sequence
    behind [id] advances whenever the statement runs, also when the
    conflict clause skips the row. *)
Definition exec_insert (fault : option string)
    (email password api_key : string) (db : DB)
  : (ExecResult + DBError) * DB :=
  let db := log (InsertUser email password api_key) db in
  match fault with
  | Some msg => (inr (Fault msg), db)
  | None =>
      let id := users_id_seq db in
      let db := mkDB (users db) (id + 1) (trace db) in
      if existsb (has_email email) (users db) then
        (inl (mkExecResult 0), db)
      else if existsb (has_api_key api_key) (users db) then
        (inr (UniqueViolation "users_api_key_key"), db)
      else
        (inl (mkExecResult 1),
         mkDB (users db ++ [mkUser id email password api_key])%list
              (users_id_seq db) (trace db))
  end.

Definition set_api_key (api_key email : string) (u : User) : User :=
  if has_email email u
  then mkUser (ID u) (Email u) (Password u) api_key
  else u.

(** [UPDATE users SET api_key = $1 WHERE email = $2].  The update fails as
    a whole when the new value would appear twice in column [api_key]. *)
Definition exec_update (fault : option string)
    (api_key email : string) (db : DB)
  : (ExecResult + DBError) * DB :=
  let db := log (UpdateAPIKey api_key email) db in
  match fault with
  | Some msg => (inr (Fault msg), db)
  | None =>
      let matched := filter (has_email email) (users db) in
      let others :=
        filter (fun u => negb (has_email email u)) (users db) in
      match matched with
      | [] => (inl (mkExecResult 0), db)
      | _ :: more =>
          if existsb (has_api_key api_key) others
             || negb (Nat.eqb (List.length more) 0)
          then (inr (UniqueViolation "users_api_key_key"), db)
          else
            (inl (mkExecResult (Z.of_nat (List.length matched))),
             mkDB (map (set_api_key api_key email) (users db))
                  (users_id_seq db) (trace db))
      end
  end.

(** [SELECT id, email, password, api_key FROM users WHERE email = $1],
    read through [QueryRow(...).Scan]: the first row, or [ErrNoRows]. *)
Definition query_by_email (fault : option string) (email : string)
    (db : DB) : (User + DBError) * DB :=
  let db := log (SelectByEmail email) db in
  match fault with
  | Some msg => (inr (Fault msg), db)
  | None =>
      match find (has_email email) (users db) with
      | Some u => (inl u, db)
      | None => (inr ErrNoRows, db)
      end
  end.

(** [SELECT id, email, api_key FROM users WHERE api_key = $1]; the
    [Password] field of the scanned [User] keeps its zero value. *)
Definition query_by_api_key (fault : option string) (api_key : string)
    (db : DB) : (User + DBError) * DB :=
  let db := log (SelectByAPIKey api_key) db in
  match fault with
  | Some msg => (inr (Fault msg), db)
  | None =>
      match find (has_api_key api_key) (users db) with
      | Some u => (inl (mkUser (ID u) (Email u) "" (APIKey u)), db)
      | None => (inr ErrNoRows, db)
      end
  end.

End sqldb.

Import sqldb.

(** ** Per-request environment

    What a handler obtains from outside during one call: the bytes
    [crypto/rand] delivers (or its failure), the same for the salt drawn
    inside bcrypt, a possible failure of the database round trip, and the
    identity [auth.UserID()] reports. *)

Definition Entropy : Type := option (nat -> byte).

Record Env : Type := mkEnv {
  bcrypt_rand : Entropy;
  rand_Reader : Entropy;
  db_fault : option string;
  auth_UserID : option string
}.

(** [rand.Read(b)]: fills all of [b], or fails. *)
Definition rand_Read (r : Entropy) (b : list byte) : option (list byte) :=
  match r with
  | Some src => Some (map src (seq 0 (List.length b)))
  | None => None
  end.

Definition x00 : byte := Byte.x00.

(** [generateAPIKey] *)
Definition generateAPIKey (r : Entropy) : string + unit :=
  let bytes := repeat x00 16 in
  match rand_Read r bytes with
  | None => inr tt
  | Some bytes => inl ("esk_" ++ hex.EncodeToString bytes)
  end.

(** ** golang.org/x/crypto/bcrypt

    The library is outside the repository; the handlers are written against
    its two entry points.  [GenerateFromPassword] draws its salt from the
    entropy it is given and returns [None] for a non-nil error;
    [CompareHashAndPassword] returns [true] for a nil error. *)

Module bcrypt.

Definition DefaultCost : Z := 10.

Record Impl : Type := mkImpl {
  GenerateFromPassword : Entropy -> string -> Z -> option string;
  CompareHashAndPassword : string -> string -> bool
}.

(** A hash is accepted for the password it was made from. *)
Definition accepts_own (B : Impl) : Prop :=
  forall r pw cost h,
    GenerateFromPassword B r pw cost = Some h ->
    CompareHashAndPassword B h pw = true.

(** Hashing never hands the password back as its own hash. *)
Definition never_returns_input (B : Impl) : Prop :=
  forall r pw cost h,
    GenerateFromPassword B r pw cost = Some h -> h <> pw.

(** The bytes of a password that reach the cipher.  The library keys
    Blowfish with the password followed by a zero byte, and the key
    schedule reads that key cyclically for 72 bytes (18 words of 4). *)
Fixpoint read_cyclic (n : nat) (key rest : string) : string :=
  match n with
  | O => EmptyString
  | S n' =>
      match rest with
      | String c rest' => String c (read_cyclic n' key rest')
      | EmptyString =>
          match key with
          | String c key' => String c (read_cyclic n' key key')
          | EmptyString => EmptyString
          end
      end
  end.

Definition key_stream (pw : string) : string :=
  let key := pw ++ String Ascii.zero EmptyString in
  read_cyclic 72 key key.

(** Comparison sees a password only through those 72 bytes. *)
Definition reads_key_stream (B : Impl) : Prop :=
  forall h pw pw',
    key_stream pw = key_stream pw' ->
    CompareHashAndPassword B h pw = CompareHashAndPassword B h pw'.

End bcrypt.

(** ** The endpoints *)

Definition Result (A : Type) : Type := (A + errs.Error)%type.

Definition fail {A : Type} (c : errs.ErrCode) (m : string) : Result A :=
  inr (errs.mkError c m).

Section Handlers.

Variable B : bcrypt.Impl.

(** [Signup], [//encore:api public method=POST path=/signup] *)
Definition Signup (env : Env) (params : SignupParams) (db : DB)
  : Result SignupResponse * DB :=
  if String.eqb (sp_Email params) ""
     || negb (strings.Contains (sp_Email params) "@")
  then (fail errs.InvalidArgument "valid email is required", db)
  else if String.eqb (sp_Password params) ""
          || (String.length (sp_Password params) <? 8)%nat
  then (fail errs.InvalidArgument
          "password must be at least 8 characters", db)
  else
    match bcrypt.GenerateFromPassword B (bcrypt_rand env)
            (sp_Password params) bcrypt.DefaultCost with
    | None => (fail errs.Internal "failed to hash password", db)
    | Some hashedPw =>
        match generateAPIKey (rand_Reader env) with
        | inr _ => (fail errs.Internal "failed to generate API key", db)
        | inl apiKey =>
            match exec_insert (db_fault env)
                    (sp_Email params) hashedPw apiKey db with
            | (inr err, db') =>
                (fail errs.Internal
                   ("failed to create user: " ++ sqldb.Error err), db')
            | (inl result, db') =>
                if (RowsAffected result =? 0)%Z
                then (fail errs.AlreadyExists "email already registered",
                      db')
                else (inl (mkSignupResponse apiKey), db')
            end
        end
    end.

(** [Login], [//encore:api public method=POST path=/login] *)
Definition Login (env : Env) (params : LoginParams) (db : DB)
  : Result LoginResponse * DB :=
  if String.eqb (lp_Email params) "" || String.eqb (lp_Password params) ""
  then (fail errs.InvalidArgument "email and password required", db)
  else
    match query_by_email (db_fault env) (lp_Email params) db with
    | (inr _, db') => (fail errs.Unauthenticated "invalid credentials", db')
    | (inl user, db') =>
        if negb (bcrypt.CompareHashAndPassword B (Password user)
                   (lp_Password params))
        then (fail errs.Unauthenticated "invalid credentials", db')
        else (inl (mkLoginResponse (APIKey user)), db')
    end.

(** [RegenerateKey], [//encore:api auth method=POST path=/regenerate-key].
    The result of [db.Exec] is discarded; only its error is inspected. *)
Definition RegenerateKey (env : Env) (db : DB)
  : Result RegenerateKeyResponse * DB :=
  match auth_UserID env with
  | None => (fail errs.Unauthenticated "user not authenticated", db)
  | Some userID =>
      match generateAPIKey (rand_Reader env) with
      | inr _ => (fail errs.Internal "failed to generate new key", db)
      | inl newKey =>
          match exec_update (db_fault env) newKey userID db with
          | (inr _, db') => (fail errs.Internal "failed to update key", db')
          | (inl _, db') => (inl (mkRegenerateKeyResponse newKey), db')
          end
      end
  end.

(** [AuthHandler], [//encore:authhandler]; the result is the [auth.UID]. *)
Definition AuthHandler (env : Env) (apiKey : string) (db : DB)
  : Result string * DB :=
  if negb (strings.HasPrefix apiKey "esk_")
     || (String.length apiKey <? 8)%nat
  then (fail errs.Unauthenticated
          "invalid API key format; must start with 'esk_'", db)
  else
    match query_by_api_key (db_fault env) apiKey db with
    | (inr _, db') => (fail errs.Unauthenticated "invalid API key", db')
    | (inl user, db') => (inl (Email user), db')
    end.

(** [Protected], [//encore:api auth method=POST path=/protected] *)
Definition Protected (env : Env) (params : ProtectedParams) (db : DB)
  : Result ProtectedResponse * DB :=
  if String.eqb (Data params) ""
  then (fail errs.InvalidArgument "data is required", db)
  else
    match auth_UserID env with
    | None => (fail errs.Unauthenticated "user not authenticated", db)
    | Some userID =>
        (inl (mkProtectedResponse
                ("Protected data for " ++ userID ++ ": " ++ Data params)),
         db)
    end.

(** *** Sequences of requests *)

Inductive Request : Type :=
| ReqSignup (params : SignupParams)
| ReqLogin (params : LoginParams)
| ReqRegenerateKey
| ReqAuthHandler (apiKey : string)
| ReqProtected (params : ProtectedParams).

(** The database after one request has been served. *)
Definition serve (c : Env * Request) (db : DB) : DB :=
  match c with
  | (env, ReqSignup p) => snd (Signup env p db)
  | (env, ReqLogin p) => snd (Login env p db)
  | (env, ReqRegenerateKey) => snd (RegenerateKey env db)
  | (env, ReqAuthHandler k) => snd (AuthHandler env k db)
  | (env, ReqProtected p) => snd (Protected env p db)
  end.

Definition run (calls : list (Env * Request)) (db : DB) : DB :=
  fold_left (fun d c => serve c d) calls db.

End Handlers.

(** ** Outcomes *)

Definition succeeded {A : Type} (r : Result A) : bool :=
  match r with inl _ => true | inr _ => false end.

Definition failed_with {A : Type} (c : errs.ErrCode) (r : Result A) : bool :=
  match r with
  | inl _ => false
  | inr e => errs.ErrCode_eqb (errs.Code e) c
  end.

(** The schema's two unique constraints, as a property of the rows. *)
Record schema_ok (db : DB) : Prop := mkSchemaOk {
  email_unique : NoDup (map Email (users db));
  api_key_unique : NoDup (map APIKey (users db))
}.

(** ** A bcrypt stand-in and sample data

    [fakebcrypt] has the shape of a bcrypt hash (version, cost, salt, then
    the payload) but keeps the password readable; it exists so that the
    handlers can be run on concrete requests.  Like the library it refuses
    passwords above 72 bytes. *)

Fixpoint skip (n : nat) (s : string) : string :=
  match n, s with
  | O, _ => s
  | S n', String _ s' => skip n' s'
  | S _, EmptyString => EmptyString
  end.

Module fakebcrypt.

Definition GenerateFromPassword (r : Entropy) (pw : string) (cost : Z)
  : option string :=
  if (72 <? String.length pw)%nat then None
  else
    match rand_Read r (repeat x00 16) with
    | None => None
    | Some salt => Some ("$2a$10$" ++ hex.EncodeToString salt ++ pw)
    end.

Definition CompareHashAndPassword (h pw : string) : bool :=
  strings.HasPrefix h "$2a$10$"
  && (39 <=? String.length h)%nat
  && String.eqb (skip 39 h) pw.

Definition impl : bcrypt.Impl :=
  bcrypt.mkImpl GenerateFromPassword CompareHashAndPassword.

End fakebcrypt.

(** [bcrypt72] is a stand-in with the key handling of the library: what it
    keeps of a password is its 72-byte key stream, so two passwords with the
    same stream are one password to it.  [GenerateFromPassword] refuses
    passwords above 72 bytes; [CompareHashAndPassword] checks no length. *)
Module bcrypt72.

Definition GenerateFromPassword (r : Entropy) (pw : string) (cost : Z)
  : option string :=
  if (72 <? String.length pw)%nat then None
  else
    match rand_Read r (repeat x00 16) with
    | None => None
    | Some salt =>
        Some ("$2a$10$" ++ hex.EncodeToString salt ++ bcrypt.key_stream pw)
    end.

Definition CompareHashAndPassword (h pw : string) : bool :=
  strings.HasPrefix h "$2a$10$"
  && (39 <=? String.length h)%nat
  && String.eqb (skip 39 h) (bcrypt.key_stream pw).

Definition impl : bcrypt.Impl :=
  bcrypt.mkImpl GenerateFromPassword CompareHashAndPassword.

(** A password of exactly 72 bytes. *)
Definition p72 : string :=
  "correct-horse-battery-staple-correct-horse-battery-staple-correct-horse!".

End bcrypt72.

Module Sample.

Definition zeros : Entropy := Some (fun _ => x00).
Definition ones : Entropy := Some (fun _ => Byte.x01).

Definition env0 : Env := mkEnv zeros zeros None None.
Definition env1 : Env := mkEnv ones ones None None.

Definition as_user (uid : string) (env : Env) : Env :=
  mkEnv (bcrypt_rand env) (rand_Reader env) (db_fault env) (Some uid).

Definition with_fault (msg : string) (env : Env) : Env :=
  mkEnv (bcrypt_rand env) (rand_Reader env) (Some msg) (auth_UserID env).

Definition K0 : string := "esk_00000000000000000000000000000000".
Definition K1 : string := "esk_01010101010101010101010101010101".

Definition alice : SignupParams := mkSignupParams "a@x.com" "longpass1".

(** The table after [alice] has signed up on an empty database. *)
Definition db1 : DB := snd (Signup fakebcrypt.impl env0 alice sqldb.empty).

End Sample.

(** A second account beside the one of [Sample.db1]. *)
Module TwoAccounts.

Definition bob : SignupParams := mkSignupParams "b@x.com" "other12345".

(** The table after [bob] has signed up as well; his key is [Sample.K1]. *)
Definition db2 : DB :=
  snd (Signup fakebcrypt.impl Sample.env1 bob Sample.db1).

Definition alice_row : User :=
  mkUser 1 "a@x.com" "$2a$10$00000000000000000000000000000000longpass1"
    Sample.K0.

Definition bob_row : User :=
  mkUser 2 "b@x.com" "$2a$10$01010101010101010101010101010101other12345"
    Sample.K1.

End TwoAccounts.

(** The format [generateAPIKey] gives a key. *)
Definition key_ok (k : string) : Prop :=
  strings.HasPrefix k "esk_" = true /\ String.length k = 36.

(** A row as the service writes it: a key in the generated format under an
    email that passed validation. *)
Definition row_ok (u : User) : Prop :=
  key_ok (APIKey u) /\ strings.Contains (Email u) "@" = true.

(** The three columns of a row no statement of the service assigns twice. *)
Definition fixed_columns (u : User) : Z * string * string :=
  (ID u, Email u, Password u).

(** The password hash on record for an email: column [password] of the
    row the login query returns. *)
Definition stored_hash (email : string) (db : DB) : option string :=
  option_map Password (find (has_email email) (users db)).

(** * Properties *)

(** ** Strings and hex *)

Lemma skip_append (a b : string) : skip (String.length a) (a ++ b) = b.
Proof. induction a as [|c a IH]; simpl; auto. Qed.

Lemma length_append (a b : string) :
  String.length (a ++ b) = String.length a + String.length b.
Proof. induction a as [|c a IH]; simpl; auto. Qed.

Lemma prefix_append (a b : string) : String.prefix a (a ++ b) = true.
Proof.
  induction a as [|c a IH]; simpl.
  - destruct b; reflexivity.
  - destruct (ascii_dec c c) as [_|n]; [exact IH | now elim n].
Qed.

Lemma EncodeToString_length (bs : list byte) :
  String.length (hex.EncodeToString bs) = 2 * List.length bs.
Proof. induction bs as [|v bs IH]; simpl; [reflexivity | rewrite IH; lia]. Qed.

Lemma hex_byte_roundtrip (v : byte) :
  hex.DecodeString (hex.EncodeToString [v]) = Some [v].
Proof. destruct v; reflexivity. Qed.

Lemma hex_roundtrip (bs : list byte) :
  hex.DecodeString (hex.EncodeToString bs) = Some bs.
Proof.
  induction bs as [|v bs IH]; [reflexivity|].
  pose proof (hex_byte_roundtrip v) as Hv.
  cbn [hex.EncodeToString] in *. cbn [hex.DecodeString] in *.
  rewrite IH.
  destruct (hex.fromHexChar _) as [hi|]; [|discriminate].
  destruct (hex.fromHexChar _) as [lo|]; [|discriminate].
  destruct (Byte.of_N _) as [w|]; [|discriminate].
  now inversion Hv.
Qed.

Lemma rand_Read_length (r : Entropy) (buf out : list byte) :
  rand_Read r buf = Some out -> List.length out = List.length buf.
Proof.
  destruct r as [src|]; simpl; [|discriminate].
  intros [= <-]. now rewrite length_map, length_seq.
Qed.

(** ** Key generation *)

Lemma generateAPIKey_inv (r : Entropy) (key : string) :
  generateAPIKey r = inl key ->
  exists src, r = Some src
              /\ key = "esk_" ++ hex.EncodeToString (map src (seq 0 16)).
Proof.
  unfold generateAPIKey. destruct r as [src|]; simpl; [|discriminate].
  intros [= <-]. now exists src.
Qed.

Lemma generated_key_well_formed (r : Entropy) (key : string) :
  generateAPIKey r = inl key ->
  strings.HasPrefix key "esk_" = true /\ String.length key = 36.
Proof.
  intros H. apply generateAPIKey_inv in H as (src & _ & ->). split.
  - apply (prefix_append "esk_").
  - rewrite length_append, EncodeToString_length, length_map, length_seq.
    reflexivity.
Qed.

(** C6.  Whenever [generateAPIKey] returns a key, the key is the literal
    ["esk_"] followed by the lower-case hex encoding of the 16 bytes that
    [crypto/rand] delivered: it has 36 characters, and decoding what follows
    the prefix gives those 16 bytes back.  It returns an error exactly when
    the random source fails. *)
Theorem generateAPIKey_format (r : Entropy) :
  match generateAPIKey r with
  | inl key =>
      exists bytes,
        rand_Read r (repeat x00 16) = Some bytes
        /\ List.length bytes = 16
        /\ key = "esk_" ++ hex.EncodeToString bytes
        /\ strings.HasPrefix key "esk_" = true
        /\ String.length key = 36
        /\ hex.DecodeString (skip 4 key) = Some bytes
  | inr _ => r = None
  end.
Proof.
  destruct (generateAPIKey r) as [key|[]] eqn:E.
  - destruct (generated_key_well_formed r key E) as [Hp Hl].
    unfold generateAPIKey in E.
    destruct (rand_Read r (repeat x00 16)) as [bytes|] eqn:R; [|discriminate].
    injection E as <-. exists bytes.
    pose proof (rand_Read_length r _ _ R) as L. simpl in L.
    repeat split; auto.
    change (hex.DecodeString (hex.EncodeToString bytes) = Some bytes).
    apply hex_roundtrip.
  - unfold generateAPIKey in E. destruct r; [discriminate | reflexivity].
Qed.

(** ** The store *)

Lemma has_email_true (e : string) (u : User) :
  has_email e u = true <-> Email u = e.
Proof. apply String.eqb_eq. Qed.

Lemma has_api_key_true (k : string) (u : User) :
  has_api_key k u = true <-> APIKey u = k.
Proof. apply String.eqb_eq. Qed.

Lemma find_absent (A : Type) (f : A -> bool) (l : list A) :
  (forall x, In x l -> f x = false) -> find f l = None.
Proof.
  induction l as [|a l IH]; intros H; simpl; [reflexivity|].
  rewrite (H a (or_introl eq_refl)). apply IH. intros x Hx. apply H. now right.
Qed.

(** With a unique column, a row is found by its value in that column. *)
Lemma find_by_unique_column (col : User -> string) (l : list User) (u : User) :
  NoDup (map col l) -> In u l ->
  find (fun x => String.eqb (col x) (col u)) l = Some u.
Proof.
  induction l as [|a l IH]; intros ND Hin; [contradiction|].
  simpl in *. inversion ND as [|? ? Hnot ND']; subst.
  destruct Hin as [->|Hin].
  - now rewrite String.eqb_refl.
  - destruct (String.eqb_spec (col a) (col u)) as [E|_]; [|now apply IH].
    exfalso. apply Hnot. rewrite E. now apply in_map.
Qed.

Lemma find_by_api_key (db : DB) (u : User) :
  schema_ok db -> In u (users db) ->
  find (has_api_key (APIKey u)) (users db) = Some u.
Proof. intros [_ H] Hin. now apply (find_by_unique_column APIKey). Qed.

Lemma find_by_email (db : DB) (u : User) :
  schema_ok db -> In u (users db) ->
  find (has_email (Email u)) (users db) = Some u.
Proof. intros [H _] Hin. now apply (find_by_unique_column Email). Qed.

(** ** Protected *)

Lemma Protected_db (env : Env) (params : ProtectedParams) (db : DB) :
  snd (Protected env params db) = db.
Proof.
  unfold Protected. destruct (String.eqb _ _); [reflexivity|].
  now destruct (auth_UserID env).
Qed.

(** C10.  [Protected] rejects empty [data] with [InvalidArgument]; with
    non-empty [data] it fails with [Unauthenticated] when no identity is
    attached and otherwise answers
    ["Protected data for " ++ identity ++ ": " ++ data].  In every case the
    database, its statement trace included, is left as it was. *)
Theorem Protected_spec (env : Env) (params : ProtectedParams) (db : DB) :
  snd (Protected env params db) = db
  /\ (Data params = "" ->
      fst (Protected env params db)
      = fail errs.InvalidArgument "data is required")
  /\ (Data params <> "" -> auth_UserID env = None ->
      fst (Protected env params db)
      = fail errs.Unauthenticated "user not authenticated")
  /\ (forall userID, Data params <> "" -> auth_UserID env = Some userID ->
      fst (Protected env params db)
      = inl (mkProtectedResponse
               ("Protected data for " ++ userID ++ ": " ++ Data params))).
Proof.
  unfold Protected.
  destruct (String.eqb_spec (Data params) "") as [E|NE].
  - repeat split; auto; intros; contradiction.
  - destruct (auth_UserID env) as [uid|]; (split; [reflexivity|]);
      (split; [intros; contradiction|]); split; intros; simpl;
      try discriminate; congruence.
Qed.

Lemma Protected_spec_witness :
  fst (Protected Sample.env0 (mkProtectedParams "") Sample.db1)
  = fail errs.InvalidArgument "data is required"
  /\ fst (Protected Sample.env0 (mkProtectedParams "ping") Sample.db1)
     = fail errs.Unauthenticated "user not authenticated"
  /\ fst (Protected (Sample.as_user "a@x.com" Sample.env0)
            (mkProtectedParams "ping") Sample.db1)
     = inl (mkProtectedResponse "Protected data for a@x.com: ping").
Proof.
  split; [|split].
  - apply (Protected_spec Sample.env0 (mkProtectedParams "") Sample.db1).
    reflexivity.
  - apply (Protected_spec Sample.env0 (mkProtectedParams "ping") Sample.db1).
    + discriminate.
    + reflexivity.
  - destruct (Protected_spec (Sample.as_user "a@x.com" Sample.env0)
                (mkProtectedParams "ping") Sample.db1) as (_ & _ & _ & H).
    apply (H "a@x.com").
    + discriminate.
    + reflexivity.
Defined.

(** ** AuthHandler *)

Lemma AuthHandler_users (env : Env) (k : string) (db : DB) :
  users (snd (AuthHandler env k db)) = users db.
Proof.
  unfold AuthHandler, query_by_api_key.
  destruct (_ || _); [reflexivity|].
  destruct (db_fault env); [reflexivity|].
  simpl. now destruct (find _ _).
Qed.

(** C8.  A token without the ["esk_"] prefix or shorter than 8 bytes is
    refused with [Unauthenticated] and the database sees no statement.  Any
    other token costs exactly one lookup by [api_key]; the call fails with
    [Unauthenticated] when no row carries the token, and, the lookup going
    through, returns the email of the row that carries it. *)
Theorem AuthHandler_spec (env : Env) (token : string) (db : DB) :
  (strings.HasPrefix token "esk_" = false \/ String.length token < 8 ->
   AuthHandler env token db
   = (fail errs.Unauthenticated
        "invalid API key format; must start with 'esk_'", db))
  /\ (strings.HasPrefix token "esk_" = true -> 8 <= String.length token ->
      snd (AuthHandler env token db) = log (SelectByAPIKey token) db
      /\ ((forall u, In u (users db) -> APIKey u <> token) ->
          fst (AuthHandler env token db)
          = fail errs.Unauthenticated "invalid API key")
      /\ (forall u, schema_ok db -> db_fault env = None ->
          In u (users db) -> APIKey u = token ->
          fst (AuthHandler env token db) = inl (Email u))).
Proof.
  unfold AuthHandler. split.
  - intros [Hp|Hl].
    + now rewrite Hp.
    + apply Nat.ltb_lt in Hl. rewrite Hl. now rewrite orb_true_r.
  - intros Hp Hl. rewrite Hp.
    apply Nat.ltb_ge in Hl. rewrite Hl. simpl.
    unfold query_by_api_key. split; [|split].
    + destruct (db_fault env); [reflexivity|]. simpl. now destruct (find _ _).
    + intros Habs. destruct (db_fault env); [reflexivity|]. simpl.
      rewrite find_absent; [reflexivity|].
      intros x Hx. apply String.eqb_neq. now apply Habs.
    + intros u Hok Hf Hin <-. rewrite Hf. simpl.
      now rewrite (find_by_api_key db u Hok Hin).
Qed.

Lemma AuthHandler_spec_witness :
  AuthHandler Sample.env0 "esk_123" Sample.db1
  = (fail errs.Unauthenticated
       "invalid API key format; must start with 'esk_'", Sample.db1)
  /\ fst (AuthHandler Sample.env0 Sample.K1 Sample.db1)
     = fail errs.Unauthenticated "invalid API key"
  /\ fst (AuthHandler Sample.env0 Sample.K0 Sample.db1) = inl "a@x.com".
Proof.
  split; [|split].
  - apply (AuthHandler_spec Sample.env0 "esk_123" Sample.db1).
    right. simpl. lia.
  - apply (AuthHandler_spec Sample.env0 Sample.K1 Sample.db1).
    + reflexivity.
    + simpl. lia.
    + simpl. intros u [<-|[]]. discriminate.
  - apply (AuthHandler_spec Sample.env0 Sample.K0 Sample.db1) with
      (u := mkUser 1 "a@x.com"
              "$2a$10$00000000000000000000000000000000longpass1" Sample.K0).
    + reflexivity.
    + simpl. lia.
    + split; simpl; repeat constructor; simpl; tauto.
    + reflexivity.
    + simpl. now left.
    + reflexivity.
Defined.

(** ** Login *)

Section LoginProperties.

Variable B : bcrypt.Impl.

Lemma Login_users (env : Env) (p : LoginParams) (db : DB) :
  users (snd (Login B env p db)) = users db
  /\ users_id_seq (snd (Login B env p db)) = users_id_seq db.
Proof.
  unfold Login, query_by_email.
  destruct (_ || _); [now split|].
  destruct (db_fault env); [now split|]. simpl.
  destruct (find _ _); [|now split].
  now destruct (negb _).
Qed.

(** A successful login went through the lookup and the comparison. *)
Lemma Login_success_inv (env : Env) (p : LoginParams) (db : DB)
    (resp : LoginResponse) :
  fst (Login B env p db) = inl resp ->
  exists u,
    find (has_email (lp_Email p)) (users db) = Some u
    /\ bcrypt.CompareHashAndPassword B (Password u) (lp_Password p) = true
    /\ lr_APIKey resp = APIKey u
    /\ lp_Email p <> "" /\ lp_Password p <> "" /\ db_fault env = None.
Proof.
  unfold Login, query_by_email.
  destruct (String.eqb_spec (lp_Email p) "") as [|NE]; [discriminate|].
  destruct (String.eqb_spec (lp_Password p) "") as [|NP]; [discriminate|].
  simpl. destruct (db_fault env); [discriminate|]. simpl.
  destruct (find _ _) as [u|] eqn:F; [|discriminate]. simpl.
  destruct (bcrypt.CompareHashAndPassword B _ _) eqn:C; [|discriminate].
  simpl. intros [= <-]. exists u. repeat split; auto.
Qed.

(** The exact outcome of a login on well-formed parameters when the lookup
    goes through. *)
Lemma Login_found (env : Env) (p : LoginParams) (db : DB) (u : User) :
  lp_Email p <> "" -> lp_Password p <> "" -> db_fault env = None ->
  find (has_email (lp_Email p)) (users db) = Some u ->
  fst (Login B env p db)
  = if bcrypt.CompareHashAndPassword B (Password u) (lp_Password p)
    then inl (mkLoginResponse (APIKey u))
    else fail errs.Unauthenticated "invalid credentials".
Proof.
  intros NE NP Hf F. unfold Login, query_by_email.
  apply String.eqb_neq in NE, NP. rewrite NE, NP, Hf. simpl. rewrite F.
  now destruct (bcrypt.CompareHashAndPassword B _ _).
Qed.

(** C3.  With non-empty email and password, a login for an email no row
    carries and a login for a stored email whose password hash rejects the
    presented password fail with one and the same error: kind
    [Unauthenticated], message ["invalid credentials"]. *)
Theorem Login_failure_indistinguishable
    (env1 env2 : Env) (db : DB) (e1 p1 e2 p2 : string) :
  e1 <> "" -> p1 <> "" -> e2 <> "" -> p2 <> "" ->
  (forall u, In u (users db) -> Email u <> e1) ->
  (exists u, In u (users db) /\ Email u = e2) ->
  (forall u, In u (users db) -> Email u = e2 ->
             bcrypt.CompareHashAndPassword B (Password u) p2 = false) ->
  fst (Login B env1 (mkLoginParams e1 p1) db)
  = fail errs.Unauthenticated "invalid credentials"
  /\ fst (Login B env2 (mkLoginParams e2 p2) db)
     = fst (Login B env1 (mkLoginParams e1 p1) db).
Proof.
  intros N1 P1 N2 P2 Habs _ Hbad.
  assert (L1 : fst (Login B env1 (mkLoginParams e1 p1) db)
               = fail errs.Unauthenticated "invalid credentials").
  { unfold Login, query_by_email. simpl.
    apply String.eqb_neq in N1, P1. rewrite N1, P1. simpl.
    destruct (db_fault env1); [reflexivity|]. simpl.
    rewrite find_absent; [reflexivity|].
    intros x Hx. apply String.eqb_neq. now apply Habs. }
  split; [exact L1|]. rewrite L1.
  unfold Login, query_by_email. simpl.
  apply String.eqb_neq in N2, P2. rewrite N2, P2. simpl.
  destruct (db_fault env2); [reflexivity|]. simpl.
  destruct (find _ _) as [u|] eqn:F; [|reflexivity]. simpl.
  apply find_some in F as [Hin He]. apply has_email_true in He.
  now rewrite (Hbad u Hin He).
Qed.

(** C7.  [Login] never changes a row.  When it succeeds, the key it
    returns is the [api_key] of the row stored for that email, before and
    after the call, and the outcome does not depend on the random source:
    no key is generated. *)
Theorem Login_returns_stored_key (env : Env) (p : LoginParams) (db : DB) :
  users (snd (Login B env p db)) = users db
  /\ (forall r1 r2,
        Login B (mkEnv r1 r2 (db_fault env) (auth_UserID env)) p db
        = Login B env p db)
  /\ (forall resp,
        fst (Login B env p db) = inl resp ->
        exists u,
          find (has_email (lp_Email p)) (users (snd (Login B env p db)))
          = Some u
          /\ In u (users db)
          /\ Email u = lp_Email p
          /\ lr_APIKey resp = APIKey u).
Proof.
  split; [apply Login_users|]. split; [reflexivity|].
  intros resp H. apply Login_success_inv in H as (u & F & _ & K & _).
  exists u. rewrite (proj1 (Login_users env p db)).
  pose proof (find_some _ _ F) as [Hin He]. apply has_email_true in He.
  auto.
Qed.

End LoginProperties.

Lemma Login_failure_indistinguishable_witness :
  fst (Login fakebcrypt.impl Sample.env0
         (mkLoginParams "c@x.com" "longpass1") Sample.db1)
  = fail errs.Unauthenticated "invalid credentials"
  /\ fst (Login fakebcrypt.impl Sample.env1
            (mkLoginParams "a@x.com" "wrongpass") Sample.db1)
     = fst (Login fakebcrypt.impl Sample.env0
              (mkLoginParams "c@x.com" "longpass1") Sample.db1).
Proof.
  apply (Login_failure_indistinguishable fakebcrypt.impl
           Sample.env0 Sample.env1 Sample.db1
           "c@x.com" "longpass1" "a@x.com" "wrongpass");
    try discriminate.
  - simpl. intros u [<-|[]]. discriminate.
  - eexists. split; [left; reflexivity | reflexivity].
  - simpl. intros u [<-|[]] _. reflexivity.
Defined.

Lemma Login_returns_stored_key_witness :
  exists u,
    find (has_email "a@x.com") (users Sample.db1) = Some u
    /\ In u (users Sample.db1)
    /\ Email u = "a@x.com"
    /\ Sample.K0 = APIKey u.
Proof.
  destruct (Login_returns_stored_key fakebcrypt.impl Sample.env1
              (mkLoginParams "a@x.com" "longpass1") Sample.db1)
    as (_ & _ & H).
  destruct (H (mkLoginResponse Sample.K0) eq_refl) as (u & F & I & E & K).
  exists u. rewrite (proj1 (Login_users fakebcrypt.impl Sample.env1
                              (mkLoginParams "a@x.com" "longpass1")
                              Sample.db1)) in F.
  auto.
Defined.

(** ** Signup *)

Section SignupProperties.

Variable B : bcrypt.Impl.

(** Past validation, [Signup] is its hash, key and insert steps. *)
Lemma Signup_validated (env : Env) (p : SignupParams) (db : DB) :
  strings.Contains (sp_Email p) "@" = true ->
  8 <= String.length (sp_Password p) ->
  Signup B env p db
  = match bcrypt.GenerateFromPassword B (bcrypt_rand env)
            (sp_Password p) bcrypt.DefaultCost with
    | None => (fail errs.Internal "failed to hash password", db)
    | Some hashedPw =>
        match generateAPIKey (rand_Reader env) with
        | inr _ => (fail errs.Internal "failed to generate API key", db)
        | inl apiKey =>
            match exec_insert (db_fault env)
                    (sp_Email p) hashedPw apiKey db with
            | (inr err, db') =>
                (fail errs.Internal
                   ("failed to create user: " ++ sqldb.Error err), db')
            | (inl result, db') =>
                if (RowsAffected result =? 0)%Z
                then (fail errs.AlreadyExists "email already registered",
                      db')
                else (inl (mkSignupResponse apiKey), db')
            end
        end
    end.
Proof.
  intros Hat Hlen. unfold Signup. rewrite Hat.
  assert (E : String.eqb (sp_Email p) "" = false).
  { apply String.eqb_neq. intros E. rewrite E in Hat. discriminate. }
  assert (P : String.eqb (sp_Password p) "" = false).
  { apply String.eqb_neq. intros P. rewrite P in Hlen. simpl in Hlen. lia. }
  apply Nat.ltb_ge in Hlen. now rewrite E, P, Hlen.
Qed.

(** What a successful signup did. *)
Lemma Signup_success_inv (env : Env) (p : SignupParams) (db : DB)
    (resp : SignupResponse) :
  fst (Signup B env p db) = inl resp ->
  exists h,
    bcrypt.GenerateFromPassword B (bcrypt_rand env) (sp_Password p)
      bcrypt.DefaultCost = Some h
    /\ generateAPIKey (rand_Reader env) = inl (sr_APIKey resp)
    /\ existsb (has_email (sp_Email p)) (users db) = false
    /\ existsb (has_api_key (sr_APIKey resp)) (users db) = false
    /\ users (snd (Signup B env p db))
       = (users db
            ++ [mkUser (users_id_seq db) (sp_Email p) h (sr_APIKey resp)])%list
    /\ sp_Email p <> ""
    /\ 8 <= String.length (sp_Password p).
Proof.
  unfold Signup, exec_insert.
  destruct (String.eqb_spec (sp_Email p) "") as [|NE]; [discriminate|].
  simpl. destruct (negb _); [discriminate|].
  destruct (String.eqb (sp_Password p) ""); [discriminate|]. simpl.
  destruct (Nat.ltb_spec (String.length (sp_Password p)) 8) as [|L];
    [discriminate|].
  destruct (bcrypt.GenerateFromPassword B _ _ _) as [h|]; [|discriminate].
  destruct (generateAPIKey _) as [k|]; [|discriminate].
  destruct (db_fault env); [discriminate|]. simpl.
  destruct (existsb (has_email _) _) eqn:Ee; [discriminate|].
  destruct (existsb (has_api_key _) _) eqn:Ek; [discriminate|].
  simpl. intros [= <-]. exists h. simpl. repeat split; auto.
Qed.

(** A failed signup stores nothing: the rows are those from before. *)
Lemma Signup_failure_keeps_rows (env : Env) (p : SignupParams) (db : DB) :
  succeeded (fst (Signup B env p db)) = false ->
  users (snd (Signup B env p db)) = users db.
Proof.
  unfold Signup, exec_insert.
  destruct (_ || _); [reflexivity|].
  destruct (_ || _); [reflexivity|].
  destruct (bcrypt.GenerateFromPassword B _ _ _); [|reflexivity].
  destruct (generateAPIKey _); [|reflexivity].
  destruct (db_fault env); [reflexivity|]. simpl.
  destruct (existsb (has_email _) _); [reflexivity|].
  destruct (existsb (has_api_key _) _); [reflexivity|].
  simpl. discriminate.
Qed.

(** Every [Internal] failure of signup leaves the rows untouched. *)
Lemma Signup_internal_keeps_rows (env : Env) (p : SignupParams) (db : DB) :
  failed_with errs.Internal (fst (Signup B env p db)) = true ->
  users (snd (Signup B env p db)) = users db.
Proof.
  intros H. apply Signup_failure_keeps_rows.
  now destruct (fst (Signup B env p db)).
Qed.

(** The two [Internal] failures that precede the insert carry fixed
    messages and reach the database with no statement. *)
Lemma Signup_hash_or_key_failure (env : Env) (p : SignupParams) (db : DB) :
  strings.Contains (sp_Email p) "@" = true ->
  8 <= String.length (sp_Password p) ->
  (bcrypt.GenerateFromPassword B (bcrypt_rand env) (sp_Password p)
     bcrypt.DefaultCost = None ->
   Signup B env p db = (fail errs.Internal "failed to hash password", db))
  /\ (forall h,
        bcrypt.GenerateFromPassword B (bcrypt_rand env) (sp_Password p)
          bcrypt.DefaultCost = Some h ->
        rand_Reader env = None ->
        Signup B env p db
        = (fail errs.Internal "failed to generate API key", db)).
Proof.
  intros Hat Hlen. rewrite (Signup_validated env p db Hat Hlen). split.
  - now intros ->.
  - intros h -> ->. reflexivity.
Qed.

(** When the insert statement itself returns an error, the message handed
    to the caller is the prefix ["failed to create user: "] followed by
    the text of that error. *)
Lemma Signup_insert_error (env : Env) (p : SignupParams) (db : DB)
    (h k : string) (err : DBError) :
  strings.Contains (sp_Email p) "@" = true ->
  8 <= String.length (sp_Password p) ->
  bcrypt.GenerateFromPassword B (bcrypt_rand env) (sp_Password p)
    bcrypt.DefaultCost = Some h ->
  generateAPIKey (rand_Reader env) = inl k ->
  fst (exec_insert (db_fault env) (sp_Email p) h k db) = inr err ->
  fst (Signup B env p db)
  = fail errs.Internal ("failed to create user: " ++ sqldb.Error err).
Proof.
  intros Hat Hlen Hh Hk Hx.
  rewrite (Signup_validated env p db Hat Hlen), Hh, Hk.
  destruct (exec_insert _ _ _ _ _) as [[r|e] db']; simpl in *;
    [discriminate|]. now injection Hx as ->.
Qed.

(** C5, as the code has it.  A signup whose email is already stored never
    succeeds and never changes a row.  Its error is [AlreadyExists]
    whenever the request passes validation, hashing and key generation
    succeed and the insert statement runs without a database failure. *)
Theorem Signup_existing_email (env : Env) (p : SignupParams) (db : DB) :
  (exists u, In u (users db) /\ Email u = sp_Email p) ->
  users (snd (Signup B env p db)) = users db
  /\ succeeded (fst (Signup B env p db)) = false
  /\ (forall h k,
        strings.Contains (sp_Email p) "@" = true ->
        8 <= String.length (sp_Password p) ->
        bcrypt.GenerateFromPassword B (bcrypt_rand env) (sp_Password p)
          bcrypt.DefaultCost = Some h ->
        generateAPIKey (rand_Reader env) = inl k ->
        db_fault env = None ->
        fst (Signup B env p db)
        = fail errs.AlreadyExists "email already registered").
Proof.
  intros (u & Hin & He).
  assert (Ex : existsb (has_email (sp_Email p)) (users db) = true).
  { apply existsb_exists. exists u. split; [exact Hin|].
    now apply has_email_true. }
  assert (F : succeeded (fst (Signup B env p db)) = false).
  { destruct (fst (Signup B env p db)) as [resp|] eqn:S; [|reflexivity].
    apply Signup_success_inv in S as (h & _ & _ & Ee & _). congruence. }
  split; [now apply Signup_failure_keeps_rows|]. split; [exact F|].
  intros h k Hat Hlen Hh Hk Hf.
  rewrite (Signup_validated env p db Hat Hlen), Hh, Hk, Hf.
  unfold exec_insert. simpl. now rewrite Ex.
Qed.

End SignupProperties.

Lemma Signup_existing_email_witness :
  users (snd (Signup fakebcrypt.impl Sample.env1
                (mkSignupParams "a@x.com" "other12345") Sample.db1))
  = users Sample.db1
  /\ fst (Signup fakebcrypt.impl Sample.env1
            (mkSignupParams "a@x.com" "other12345") Sample.db1)
     = fail errs.AlreadyExists "email already registered".
Proof.
  destruct (Signup_existing_email fakebcrypt.impl Sample.env1
              (mkSignupParams "a@x.com" "other12345") Sample.db1)
    as (Hrows & _ & Herr).
  - eexists. split; [left; reflexivity | reflexivity].
  - split; [exact Hrows|].
    apply (Herr "$2a$10$01010101010101010101010101010101other12345"
                Sample.K1); try reflexivity.
    simpl. lia.
Defined.

(** C5 as worded fails: the email is stored, yet a password under 8 bytes
    is turned away by validation with [InvalidArgument] before the store is
    consulted. *)
Lemma Signup_existing_email_short_password :
  (exists u, In u (users Sample.db1) /\ Email u = "a@x.com")
  /\ fst (Signup fakebcrypt.impl Sample.env1
            (mkSignupParams "a@x.com" "short") Sample.db1)
     = fail errs.InvalidArgument "password must be at least 8 characters"
  /\ failed_with errs.AlreadyExists
       (fst (Signup fakebcrypt.impl Sample.env1
               (mkSignupParams "a@x.com" "short") Sample.db1)) = false.
Proof.
  split; [|split; reflexivity].
  eexists. split; [left; reflexivity | reflexivity].
Qed.

(** C9 at a concrete request.  The database refuses the connection while
    ["b@x.com"] signs up: the caller receives the driver's error text after
    the prefix, and a different failure gives a different message, while
    the rows stay as they were. *)
Theorem Signup_store_error_reaches_caller :
  let p := mkSignupParams "b@x.com" "other12345" in
  let refused :=
    Sample.with_fault "dial tcp 10.0.0.5:5432: connect: connection refused"
      Sample.env1 in
  let busy :=
    Sample.with_fault "FATAL: sorry, too many clients already (SQLSTATE 53300)"
      Sample.env1 in
  fst (Signup fakebcrypt.impl refused p Sample.db1)
  = fail errs.Internal
      "failed to create user: dial tcp 10.0.0.5:5432: connect: connection refused"
  /\ fst (Signup fakebcrypt.impl busy p Sample.db1)
     = fail errs.Internal
         "failed to create user: FATAL: sorry, too many clients already (SQLSTATE 53300)"
  /\ fst (Signup fakebcrypt.impl refused p Sample.db1)
     <> fst (Signup fakebcrypt.impl busy p Sample.db1)
  /\ users (snd (Signup fakebcrypt.impl refused p Sample.db1))
     = users Sample.db1.
Proof. repeat split. discriminate. Qed.

(** ** RegenerateKey *)

Lemma set_api_key_Email (k e : string) (u : User) :
  Email (set_api_key k e u) = Email u.
Proof. unfold set_api_key. now destruct (has_email e u). Qed.

Lemma set_api_key_Password (k e : string) (u : User) :
  Password (set_api_key k e u) = Password u.
Proof. unfold set_api_key. now destruct (has_email e u). Qed.

Lemma set_api_key_APIKey (k e : string) (u : User) :
  APIKey (set_api_key k e u)
  = if has_email e u then k else APIKey u.
Proof. unfold set_api_key. now destruct (has_email e u). Qed.

(** The rows after a rotation request: either untouched, or every row of
    the caller rewritten with the new key. *)
Lemma RegenerateKey_users (env : Env) (db : DB) :
  users (snd (RegenerateKey env db)) = users db
  \/ exists uid k,
       auth_UserID env = Some uid
       /\ fst (RegenerateKey env db) = inl (mkRegenerateKeyResponse k)
       /\ users (snd (RegenerateKey env db))
          = map (set_api_key k uid) (users db)
       /\ (forall v, In v (users db) -> Email v <> uid -> APIKey v <> k).
Proof.
  unfold RegenerateKey, exec_update.
  destruct (auth_UserID env) as [uid|]; [|now left].
  destruct (generateAPIKey _) as [k|]; [|now left].
  destruct (db_fault env); [now left|]. simpl.
  destruct (filter (has_email uid) (users db)) as [|m more]; [now left|].
  destruct (existsb _ _) eqn:X; [now left|].
  destruct (negb _); [now left|].
  right. exists uid, k. simpl. repeat split; auto.
  intros v Hv Hne Hk.
  assert (Y : existsb (has_api_key k)
                (filter (fun x => negb (has_email uid x)) (users db))
              = true).
  { apply existsb_exists. exists v. split.
    - apply filter_In. split; [exact Hv|].
      apply negb_true_iff. now apply String.eqb_neq.
    - now apply has_api_key_true. }
  congruence.
Qed.

(** A rotation that returned a key for a caller with a stored row. *)
Lemma RegenerateKey_success_inv (env : Env) (db : DB) (u : User)
    (resp : RegenerateKeyResponse) :
  In u (users db) -> auth_UserID env = Some (Email u) ->
  fst (RegenerateKey env db) = inl resp ->
  generateAPIKey (rand_Reader env) = inl (NewAPIKey resp)
  /\ users (snd (RegenerateKey env db))
     = map (set_api_key (NewAPIKey resp) (Email u)) (users db)
  /\ (forall v, In v (users db) -> Email v <> Email u ->
                APIKey v <> NewAPIKey resp).
Proof.
  intros Hin Hu. unfold RegenerateKey, exec_update. rewrite Hu.
  destruct (generateAPIKey _) as [k|]; [|discriminate].
  destruct (db_fault env); [discriminate|]. simpl.
  destruct (filter (has_email (Email u)) (users db)) as [|m more] eqn:F.
  - exfalso.
    assert (I : In u (filter (has_email (Email u)) (users db))).
    { apply filter_In. split; [exact Hin|]. now apply has_email_true. }
    rewrite F in I. exact I.
  - destruct (existsb _ _) eqn:X; [discriminate|].
    destruct (negb _); [discriminate|]. simpl. intros [= <-]. simpl.
    repeat split; auto.
    intros v Hv Hne Hk.
    assert (Y : existsb (has_api_key k)
                  (filter (fun x => negb (has_email (Email u) x)) (users db))
                = true).
    { apply existsb_exists. exists v. split.
      - apply filter_In. split; [exact Hv|].
        apply negb_true_iff. now apply String.eqb_neq.
      - now apply has_api_key_true. }
    congruence.
Qed.

(** C1 at its failing case.  The caller's identity matches no row, so the
    update statement reports zero rows affected; [RegenerateKey] still
    answers with the freshly generated key, which the table does not hold. *)
Theorem RegenerateKey_zero_rows (env : Env) (db : DB) (uid key : string) :
  auth_UserID env = Some uid ->
  generateAPIKey (rand_Reader env) = inl key ->
  db_fault env = None ->
  (forall u, In u (users db) -> Email u <> uid) ->
  fst (exec_update (db_fault env) key uid db) = inl (mkExecResult 0)
  /\ RegenerateKey env db
     = (inl (mkRegenerateKeyResponse key), log (UpdateAPIKey key uid) db).
Proof.
  intros Hu Hk Hf Habs. unfold RegenerateKey, exec_update.
  rewrite Hu, Hk, Hf. simpl.
  assert (F : filter (has_email uid) (users db) = []).
  { induction (users db) as [|a l IH]; [reflexivity|]. simpl.
    assert (has_email uid a = false) as ->.
    { apply String.eqb_neq. apply Habs. now left. }
    apply IH. intros x Hx. apply Habs. now right. }
  rewrite F. now split.
Qed.

Lemma RegenerateKey_zero_rows_witness :
  fst (exec_update None Sample.K1 "ghost@x.com" Sample.db1)
  = inl (mkExecResult 0)
  /\ RegenerateKey (Sample.as_user "ghost@x.com" Sample.env1) Sample.db1
     = (inl (mkRegenerateKeyResponse Sample.K1),
        log (UpdateAPIKey Sample.K1 "ghost@x.com") Sample.db1).
Proof.
  apply (RegenerateKey_zero_rows
           (Sample.as_user "ghost@x.com" Sample.env1) Sample.db1
           "ghost@x.com" Sample.K1); try reflexivity.
  simpl. intros u [<-|[]]. discriminate.
Defined.

(** ** The schema constraints hold in every reachable database *)

Lemma NoDup_snoc (A : Type) (l : list A) (a : A) :
  NoDup l -> ~ In a l -> NoDup (l ++ [a]).
Proof.
  induction l as [|b l IH]; intros ND Hn; simpl.
  - constructor; [tauto | constructor].
  - inversion ND as [|? ? Hb ND']; subst. constructor.
    + rewrite in_app_iff. simpl. intros [H|[H|[]]]; [tauto|].
      apply Hn. now left.
    + apply IH; [exact ND'|]. intros H. apply Hn. now right.
Qed.

Lemma existsb_false_not_in (col : User -> string) (k : string)
    (l : list User) :
  existsb (fun u => String.eqb (col u) k) l = false -> ~ In k (map col l).
Proof.
  intros E Hin. apply in_map_iff in Hin as (u & <- & Hu).
  assert (T : existsb (fun x => String.eqb (col x) (col u)) l = true).
  { apply existsb_exists. exists u. split; [exact Hu|]. apply String.eqb_refl. }
  congruence.
Qed.

Lemma map_Email_set_api_key (k e : string) (l : list User) :
  map Email (map (set_api_key k e) l) = map Email l.
Proof.
  induction l as [|a l IH]; simpl; [reflexivity|].
  now rewrite set_api_key_Email, IH.
Qed.

Lemma set_api_key_others (k e : string) (l : list User) :
  (forall v, In v l -> Email v <> e) -> map (set_api_key k e) l = l.
Proof.
  induction l as [|a l IH]; intros H; simpl; [reflexivity|].
  rewrite IH by (intros v Hv; apply H; now right).
  unfold set_api_key.
  assert (has_email e a = false) as ->; [|reflexivity].
  apply String.eqb_neq. apply H. now left.
Qed.

Lemma in_keys_after_update (k e x : string) (l : list User) :
  In x (map APIKey (map (set_api_key k e) l)) ->
  x = k \/ In x (map APIKey l).
Proof.
  induction l as [|a l IH]; simpl; [tauto|].
  rewrite set_api_key_APIKey. intros [H|H].
  - destruct (has_email e a); auto.
  - destruct (IH H); auto.
Qed.

Lemma NoDup_keys_after_update (k e : string) (l : list User) :
  NoDup (map Email l) -> NoDup (map APIKey l) ->
  (forall v, In v l -> Email v <> e -> APIKey v <> k) ->
  NoDup (map APIKey (map (set_api_key k e) l)).
Proof.
  induction l as [|a l IH]; intros NE NK Hk; simpl; [constructor|].
  simpl in NE, NK.
  inversion NE as [|? ? Ha NE']; inversion NK as [|? ? Hb NK']; subst.
  rewrite set_api_key_APIKey.
  destruct (has_email e a) eqn:Ea.
  - apply has_email_true in Ea. subst e.
    assert (O : forall v, In v l -> Email v <> Email a).
    { intros v Hv E. apply Ha. rewrite <- E. now apply in_map. }
    rewrite (set_api_key_others k (Email a) l O).
    constructor; [|exact NK'].
    intros Hin. apply in_map_iff in Hin as (v & Kv & Hv).
    apply (Hk v); auto. now right.
  - apply String.eqb_neq in Ea. constructor.
    + intros Hin. apply in_keys_after_update in Hin as [E|Hin]; [|tauto].
      apply (Hk a); auto. now left.
    + apply IH; auto. intros v Hv. apply Hk. now right.
Qed.

Section Reachability.

Variable B : bcrypt.Impl.

Lemma Signup_users (env : Env) (p : SignupParams) (db : DB) :
  users (snd (Signup B env p db)) = users db
  \/ exists h k,
       existsb (has_email (sp_Email p)) (users db) = false
       /\ existsb (has_api_key k) (users db) = false
       /\ users (snd (Signup B env p db))
          = (users db ++ [mkUser (users_id_seq db) (sp_Email p) h k])%list.
Proof.
  destruct (fst (Signup B env p db)) as [resp|e] eqn:S.
  - right. apply Signup_success_inv in S as (h & _ & _ & Ee & Ek & U & _).
    now exists h, (sr_APIKey resp).
  - left. apply Signup_failure_keeps_rows. now rewrite S.
Qed.

Lemma Signup_schema_ok (env : Env) (p : SignupParams) (db : DB) :
  schema_ok db -> schema_ok (snd (Signup B env p db)).
Proof.
  intros [NE NK].
  destruct (Signup_users env p db) as [U|(h & k & Ee & Ek & U)];
    split; rewrite U; auto; rewrite map_app; simpl;
    apply NoDup_snoc; auto.
  - now apply (existsb_false_not_in Email).
  - now apply (existsb_false_not_in APIKey).
Qed.

Lemma RegenerateKey_schema_ok (env : Env) (db : DB) :
  schema_ok db -> schema_ok (snd (RegenerateKey env db)).
Proof.
  intros [NE NK].
  destruct (RegenerateKey_users env db) as [U|(uid & k & _ & _ & U & Hk)];
    split; rewrite U; auto.
  - now rewrite map_Email_set_api_key.
  - now apply NoDup_keys_after_update.
Qed.

Lemma serve_schema_ok (c : Env * Request) (db : DB) :
  schema_ok db -> schema_ok (serve B c db).
Proof.
  intros H. destruct c as [env [p|p| |k|p]]; simpl.
  - now apply Signup_schema_ok.
  - destruct H as [NE NK]. split;
      now rewrite (proj1 (Login_users B env p db)).
  - now apply RegenerateKey_schema_ok.
  - destruct H as [NE NK]. split; now rewrite AuthHandler_users.
  - now rewrite Protected_db.
Qed.

Lemma run_schema_ok (calls : list (Env * Request)) (db : DB) :
  schema_ok db -> schema_ok (run B calls db).
Proof.
  revert db. induction calls as [|c calls IH]; intros db H; simpl; auto.
  apply IH. now apply serve_schema_ok.
Qed.

(** X12.  Whatever requests are served from an empty table, no email and
    no API key is ever stored twice. *)
Lemma reachable_schema_ok (calls : list (Env * Request)) :
  schema_ok (run B calls sqldb.empty).
Proof. apply run_schema_ok. split; constructor. Qed.

End Reachability.

(** ** Rotation *)

Lemma AuthHandler_resolves (env : Env) (db : DB) (u : User) :
  schema_ok db -> In u (users db) -> db_fault env = None ->
  strings.HasPrefix (APIKey u) "esk_" = true ->
  8 <= String.length (APIKey u) ->
  fst (AuthHandler env (APIKey u) db) = inl (Email u).
Proof.
  intros Hok Hin Hf Hp Hl. unfold AuthHandler, query_by_api_key.
  apply Nat.ltb_ge in Hl. rewrite Hp, Hl, Hf. simpl.
  now rewrite (find_by_api_key db u Hok Hin).
Qed.

Lemma AuthHandler_unknown (env : Env) (db : DB) (k : string) :
  (forall v, In v (users db) -> APIKey v <> k) ->
  failed_with errs.Unauthenticated (fst (AuthHandler env k db)) = true.
Proof.
  intros Habs. unfold AuthHandler, query_by_api_key.
  destruct (_ || _); [reflexivity|].
  destruct (db_fault env); [reflexivity|]. simpl.
  rewrite find_absent; [reflexivity|].
  intros x Hx. apply String.eqb_neq. now apply Habs.
Qed.

Lemma AuthHandler_success_inv (env : Env) (db : DB) (k id : string) :
  fst (AuthHandler env k db) = inl id ->
  exists v, In v (users db) /\ APIKey v = k /\ Email v = id.
Proof.
  unfold AuthHandler, query_by_api_key.
  destruct (_ || _); [discriminate|].
  destruct (db_fault env); [discriminate|]. simpl.
  destruct (find _ _) as [v|] eqn:F; [|discriminate]. simpl.
  intros [= <-]. apply find_some in F as [Hin Hk].
  apply has_api_key_true in Hk. now exists v.
Qed.

(** Two rows of a table with unique API keys that share a key are one row. *)
Lemma same_key_same_row (db : DB) (u v : User) :
  schema_ok db -> In u (users db) -> In v (users db) ->
  APIKey v = APIKey u -> v = u.
Proof.
  intros Hok Hu Hv E.
  pose proof (find_by_api_key db u Hok Hu) as Fu.
  pose proof (find_by_api_key db v Hok Hv) as Fv.
  rewrite E in Fv. congruence.
Qed.

(** C2, as the code has it.  In a table that satisfies the schema, let the
    caller be the account of row [u], and let [RegenerateKey] have returned
    a new key.  [AuthHandler], the lookup going through, resolves the new
    key to the email of [u], the only identity the previous key could
    resolve to before the rotation; and it refuses the previous key with
    [Unauthenticated] whenever the new key is not that same key again. *)
Theorem rotation_irreversible
    (env envOld envNew : Env) (db : DB) (u : User)
    (resp : RegenerateKeyResponse) :
  schema_ok db -> In u (users db) ->
  auth_UserID env = Some (Email u) ->
  fst (RegenerateKey env db) = inl resp ->
  (forall id, fst (AuthHandler envOld (APIKey u) db) = inl id -> id = Email u)
  /\ (NewAPIKey resp <> APIKey u ->
      failed_with errs.Unauthenticated
        (fst (AuthHandler envOld (APIKey u) (snd (RegenerateKey env db))))
      = true)
  /\ (db_fault envNew = None ->
      fst (AuthHandler envNew (NewAPIKey resp) (snd (RegenerateKey env db)))
      = inl (Email u)).
Proof.
  intros Hok Hin Hu Hres.
  pose proof (RegenerateKey_schema_ok env db Hok) as Hok'.
  destruct (RegenerateKey_success_inv env db u resp Hin Hu Hres)
    as (Hgen & Hrows & Hothers).
  split; [|split].
  - intros id H. apply AuthHandler_success_inv in H as (v & Hv & Kv & <-).
    now rewrite (same_key_same_row db u v Hok Hin Hv Kv).
  - intros Hfresh. apply AuthHandler_unknown. rewrite Hrows. intros v' Hv'.
    apply in_map_iff in Hv' as (v & <- & Hv).
    rewrite set_api_key_APIKey.
    destruct (has_email (Email u) v) eqn:Ev; [exact Hfresh|].
    intros Kv. apply String.eqb_neq in Ev. apply Ev.
    now rewrite (same_key_same_row db u v Hok Hin Hv Kv).
  - intros Hf.
    set (u' := set_api_key (NewAPIKey resp) (Email u) u).
    assert (Hin' : In u' (users (snd (RegenerateKey env db)))).
    { rewrite Hrows. now apply in_map. }
    assert (Hk' : APIKey u' = NewAPIKey resp).
    { unfold u'. rewrite set_api_key_APIKey.
      unfold has_email. now rewrite String.eqb_refl. }
    destruct (generated_key_well_formed _ _ Hgen) as [Hp Hl].
    rewrite <- Hk' in *.
    rewrite (AuthHandler_resolves envNew _ u' Hok' Hin' Hf Hp); [|lia].
    unfold u'. now rewrite set_api_key_Email.
Qed.

Lemma rotation_irreversible_witness :
  failed_with errs.Unauthenticated
    (fst (AuthHandler Sample.env0 Sample.K0
            (snd (RegenerateKey (Sample.as_user "a@x.com" Sample.env1)
                    Sample.db1)))) = true
  /\ fst (AuthHandler Sample.env0 Sample.K1
            (snd (RegenerateKey (Sample.as_user "a@x.com" Sample.env1)
                    Sample.db1))) = inl "a@x.com".
Proof.
  destruct (rotation_irreversible
              (Sample.as_user "a@x.com" Sample.env1) Sample.env0 Sample.env0
              Sample.db1
              (mkUser 1 "a@x.com"
                 "$2a$10$00000000000000000000000000000000longpass1" Sample.K0)
              (mkRegenerateKeyResponse Sample.K1))
    as (_ & Hold & Hnew).
  - split; simpl; repeat constructor; simpl; tauto.
  - simpl. now left.
  - reflexivity.
  - reflexivity.
  - split; [apply Hold; discriminate | exact (Hnew eq_refl)].
Defined.

(** C2 as worded fails.  The account of ["a@x.com"] holds [Sample.K0] and
    verifies with it.  The random source delivers the same 16 bytes again,
    [RegenerateKey] returns [Sample.K0] as the new key, and [AuthHandler]
    on the previous key, which is that key, still resolves to the account
    instead of failing with [Unauthenticated]. *)
Lemma rotation_with_repeated_entropy :
  In TwoAccounts.alice_row (users Sample.db1)
  /\ APIKey TwoAccounts.alice_row = Sample.K0
  /\ fst (AuthHandler Sample.env0 Sample.K0 Sample.db1) = inl "a@x.com"
  /\ fst (RegenerateKey (Sample.as_user "a@x.com" Sample.env0) Sample.db1)
     = inl (mkRegenerateKeyResponse Sample.K0)
  /\ fst (AuthHandler Sample.env0 Sample.K0
            (snd (RegenerateKey (Sample.as_user "a@x.com" Sample.env0)
                    Sample.db1))) = inl "a@x.com"
  /\ failed_with errs.Unauthenticated
       (fst (AuthHandler Sample.env0 Sample.K0
               (snd (RegenerateKey (Sample.as_user "a@x.com" Sample.env0)
                       Sample.db1)))) = false.
Proof.
  split; [simpl; now left|]. repeat split; reflexivity.
Qed.

(** ** Password storage *)

Lemma find_app_some (A : Type) (f : A -> bool) (l l' : list A) (a : A) :
  find f l = Some a -> find f (l ++ l') = Some a.
Proof.
  induction l as [|b l IH]; simpl; [discriminate|].
  destruct (f b); auto.
Qed.

Lemma find_app_none (A : Type) (f : A -> bool) (l l' : list A) :
  find f l = None -> find f (l ++ l') = find f l'.
Proof.
  induction l as [|b l IH]; simpl; [reflexivity|].
  destruct (f b); [discriminate | auto].
Qed.

Lemma find_after_update (k uid e : string) (l : list User) :
  find (has_email e) (map (set_api_key k uid) l)
  = option_map (set_api_key k uid) (find (has_email e) l).
Proof.
  induction l as [|a l IH]; simpl; [reflexivity|].
  unfold has_email at 1. rewrite set_api_key_Email.
  fold (has_email e a). destruct (has_email e a); [reflexivity | exact IH].
Qed.

Section PasswordStorage.

Variable B : bcrypt.Impl.

(** No request changes the hash on record for an email once there is one. *)
Lemma serve_stored_hash (c : Env * Request) (db : DB) (e h : string) :
  stored_hash e db = Some h -> stored_hash e (serve B c db) = Some h.
Proof.
  unfold stored_hash. intros H. destruct c as [env [p|p| |k|p]]; simpl.
  - destruct (Signup_users B env p db) as [U|(h' & k & _ & _ & U)];
      rewrite U; [exact H|].
    destruct (find (has_email e) (users db)) as [u|] eqn:F; [|discriminate].
    now rewrite (find_app_some _ _ _ _ _ F).
  - now rewrite (proj1 (Login_users B env p db)).
  - destruct (RegenerateKey_users env db) as [U|(uid & k & _ & _ & U & _)];
      rewrite U; [exact H|].
    rewrite find_after_update.
    destruct (find (has_email e) (users db)) as [u|]; [|discriminate].
    simpl in *. now rewrite set_api_key_Password.
  - now rewrite AuthHandler_users.
  - now rewrite Protected_db.
Qed.

Lemma run_stored_hash (calls : list (Env * Request)) (db : DB)
    (e h : string) :
  stored_hash e db = Some h -> stored_hash e (run B calls db) = Some h.
Proof.
  revert db. induction calls as [|c calls IH]; intros db H; simpl; auto.
  apply IH. now apply serve_stored_hash.
Qed.

(** The hash made at signup is on record for the email from then on. *)
Lemma signup_hash_on_record
    (env : Env) (p : SignupParams) (db0 : DB) (resp : SignupResponse)
    (calls : list (Env * Request)) :
  fst (Signup B env p db0) = inl resp ->
  exists h u,
    bcrypt.GenerateFromPassword B (bcrypt_rand env) (sp_Password p)
      bcrypt.DefaultCost = Some h
    /\ find (has_email (sp_Email p))
         (users (run B calls (snd (Signup B env p db0)))) = Some u
    /\ Password u = h
    /\ sp_Email p <> "" /\ sp_Password p <> "".
Proof.
  intros S.
  apply Signup_success_inv in S as (h & G & _ & Ee & _ & U & NE & L).
  assert (H1 : stored_hash (sp_Email p) (snd (Signup B env p db0)) = Some h).
  { unfold stored_hash. rewrite U, find_app_none.
    - simpl. unfold has_email. simpl. now rewrite String.eqb_refl.
    - apply find_absent. intros x Hx.
      destruct (has_email (sp_Email p) x) eqn:X; [|reflexivity].
      assert (existsb (has_email (sp_Email p)) (users db0) = true).
      { apply existsb_exists. now exists x. }
      congruence. }
  apply (run_stored_hash calls) in H1. unfold stored_hash in H1.
  destruct (find _ _) as [u|] eqn:F; [|discriminate].
  simpl in H1. injection H1 as Hu.
  exists h, u. repeat split; auto.
  intros E. rewrite E in L. simpl in L. lia.
Qed.

(** C4, as the code has it.  After a signup accepted the password
    [sp_Password p], and whatever requests are served afterwards, the row
    stored for that email holds the hash [h] that
    [bcrypt.GenerateFromPassword] returned for it, which is not the
    plaintext as long as bcrypt never returns its input.  A login for that
    email whose lookup goes through succeeds exactly when the presented
    password is non-empty and [bcrypt.CompareHashAndPassword] accepts it
    against [h]; so it succeeds for the signup password, bcrypt accepting
    the password a hash was made from. *)
Theorem password_opacity
    (env : Env) (p : SignupParams) (db0 : DB) (resp : SignupResponse)
    (calls : list (Env * Request)) :
  fst (Signup B env p db0) = inl resp ->
  exists h u,
    bcrypt.GenerateFromPassword B (bcrypt_rand env) (sp_Password p)
      bcrypt.DefaultCost = Some h
    /\ find (has_email (sp_Email p))
         (users (run B calls (snd (Signup B env p db0)))) = Some u
    /\ Password u = h
    /\ (bcrypt.never_returns_input B -> Password u <> sp_Password p)
    /\ (forall env' pw,
          db_fault env' = None ->
          succeeded
            (fst (Login B env' (mkLoginParams (sp_Email p) pw)
                    (run B calls (snd (Signup B env p db0))))) = true
          <-> (pw <> "" /\ bcrypt.CompareHashAndPassword B h pw = true))
    /\ (bcrypt.accepts_own B ->
        forall env',
          db_fault env' = None ->
          succeeded
            (fst (Login B env' (mkLoginParams (sp_Email p) (sp_Password p))
                    (run B calls (snd (Signup B env p db0))))) = true).
Proof.
  intros S.
  destruct (signup_hash_on_record env p db0 resp calls S)
    as (h & u & G & F & Hu & NE & NPW).
  assert (L : forall env' pw,
             db_fault env' = None ->
             succeeded
               (fst (Login B env' (mkLoginParams (sp_Email p) pw)
                       (run B calls (snd (Signup B env p db0))))) = true
             <-> (pw <> "" /\ bcrypt.CompareHashAndPassword B h pw = true)).
  { intros env' pw Hf.
    destruct (String.eqb_spec pw "") as [->|NP].
    - split.
      + unfold Login. simpl. rewrite orb_true_r. discriminate.
      + intros [N _]. now elim N.
    - rewrite (Login_found B env' (mkLoginParams (sp_Email p) pw) _ u
                 NE NP Hf F).
      simpl. rewrite Hu.
      destruct (bcrypt.CompareHashAndPassword B h pw); simpl.
      + split; auto.
      + split; [discriminate | intros [_ X]; discriminate]. }
  exists h, u. split; [exact G|]. split; [exact F|]. split; [exact Hu|].
  split; [|split].
  - intros HN. rewrite Hu. exact (HN _ _ _ _ G).
  - exact L.
  - intros HA env' Hf. apply L; [exact Hf|]. split; [exact NPW|].
    exact (HA _ _ _ _ G).
Qed.

(** A login whose password has the key stream of the signup password is a
    login with the signup password, for any bcrypt that accepts its own
    hashes and reads passwords through their key stream. *)
Lemma Login_same_key_stream
    (env env' : Env) (p : SignupParams) (db0 : DB) (resp : SignupResponse)
    (calls : list (Env * Request)) (pw : string) :
  bcrypt.accepts_own B -> bcrypt.reads_key_stream B ->
  fst (Signup B env p db0) = inl resp ->
  db_fault env' = None -> pw <> "" ->
  bcrypt.key_stream pw = bcrypt.key_stream (sp_Password p) ->
  succeeded
    (fst (Login B env' (mkLoginParams (sp_Email p) pw)
            (run B calls (snd (Signup B env p db0))))) = true.
Proof.
  intros HA HR S Hf NP K.
  destruct (signup_hash_on_record env p db0 resp calls S)
    as (h & u & G & F & Hu & NE & _).
  rewrite (Login_found B env' (mkLoginParams (sp_Email p) pw) _ u
             NE NP Hf F).
  simpl. rewrite Hu, (HR h pw (sp_Password p) K), (HA _ _ _ _ G).
  reflexivity.
Qed.

End PasswordStorage.

(** What the two stand-ins provide. *)
Lemma fakebcrypt_shape (r : Entropy) (pw : string) (cost : Z) (h : string) :
  fakebcrypt.GenerateFromPassword r pw cost = Some h ->
  exists a, String.length a = 39 /\ h = a ++ pw
            /\ strings.HasPrefix h "$2a$10$" = true.
Proof.
  unfold fakebcrypt.GenerateFromPassword.
  destruct (72 <? String.length pw)%nat; [discriminate|].
  destruct (rand_Read r (repeat x00 16)) as [salt|] eqn:R; [|discriminate].
  intros [= <-]. apply rand_Read_length in R. simpl in R.
  exists ("$2a$10$" ++ hex.EncodeToString salt). split; [|split].
  - rewrite length_append, EncodeToString_length, R. reflexivity.
  - reflexivity.
  - apply (prefix_append "$2a$10$").
Qed.

Lemma fakebcrypt_accepts_own : bcrypt.accepts_own fakebcrypt.impl.
Proof.
  intros r pw cost h G. simpl in *.
  apply fakebcrypt_shape in G as (a & La & -> & Hp).
  unfold fakebcrypt.CompareHashAndPassword.
  rewrite Hp, <- La, skip_append, length_append. simpl.
  assert ((String.length a <=? String.length a + String.length pw)%nat
          = true) as -> by (apply Nat.leb_le; lia).
  simpl. apply String.eqb_refl.
Qed.

Lemma fakebcrypt_never_returns_input :
  bcrypt.never_returns_input fakebcrypt.impl.
Proof.
  intros r pw cost h G. simpl in *.
  apply fakebcrypt_shape in G as (a & La & -> & Hp).
  intros E. apply (f_equal String.length) in E.
  rewrite length_append in E. lia.
Qed.

Lemma bcrypt72_shape (r : Entropy) (pw : string) (cost : Z) (h : string) :
  bcrypt72.GenerateFromPassword r pw cost = Some h ->
  exists a, String.length a = 39 /\ h = a ++ bcrypt.key_stream pw
            /\ strings.HasPrefix h "$2a$10$" = true.
Proof.
  unfold bcrypt72.GenerateFromPassword.
  destruct (72 <? String.length pw)%nat; [discriminate|].
  destruct (rand_Read r (repeat x00 16)) as [salt|] eqn:R; [|discriminate].
  intros [= <-]. apply rand_Read_length in R. simpl in R.
  exists ("$2a$10$" ++ hex.EncodeToString salt). split; [|split].
  - rewrite length_append, EncodeToString_length, R. reflexivity.
  - reflexivity.
  - apply (prefix_append "$2a$10$").
Qed.

Lemma bcrypt72_accepts_own : bcrypt.accepts_own bcrypt72.impl.
Proof.
  intros r pw cost h G. simpl in *.
  apply bcrypt72_shape in G as (a & La & -> & Hp).
  unfold bcrypt72.CompareHashAndPassword.
  rewrite Hp, <- La, skip_append, length_append. simpl.
  assert ((String.length a
           <=? String.length a + String.length (bcrypt.key_stream pw))%nat
          = true) as -> by (apply Nat.leb_le; lia).
  simpl. apply String.eqb_refl.
Qed.

Lemma bcrypt72_reads_key_stream : bcrypt.reads_key_stream bcrypt72.impl.
Proof.
  intros h pw pw' K. simpl. unfold bcrypt72.CompareHashAndPassword.
  now rewrite K.
Qed.

Lemma password_opacity_witness :
  let calls :=
    [ (Sample.as_user "a@x.com" Sample.env1, ReqRegenerateKey);
      (Sample.env1, ReqSignup (mkSignupParams "a@x.com" "other12345"));
      (Sample.env0, ReqLogin (mkLoginParams "a@x.com" "guess123")) ] in
  let db :=
    run fakebcrypt.impl calls
      (snd (Signup fakebcrypt.impl Sample.env0 Sample.alice sqldb.empty)) in
  exists u,
    find (has_email "a@x.com") (users db) = Some u
    /\ Password u = "$2a$10$00000000000000000000000000000000longpass1"
    /\ Password u <> "longpass1"
    /\ succeeded
         (fst (Login fakebcrypt.impl Sample.env1
                 (mkLoginParams "a@x.com" "longpass1") db)) = true.
Proof.
  intros calls db.
  destruct (password_opacity fakebcrypt.impl Sample.env0 Sample.alice
              sqldb.empty (mkSignupResponse Sample.K0) calls eq_refl)
    as (h & u & G & F & Hu & HN & _ & HA).
  exists u. split; [exact F|]. split.
  - rewrite Hu. simpl in G. now injection G as <-.
  - split.
    + exact (HN fakebcrypt_never_returns_input).
    + exact (HA fakebcrypt_accepts_own Sample.env1 eq_refl).
Defined.

(** C4 as worded fails in its only-if half.  After a signup with the
    72-byte password [bcrypt72.p72], a login that presents those 72 bytes
    followed by ["X"], a different string, reaches the comparison with the
    same key stream and is given the account's key; so is a login that
    presents ["longpass1"], a zero byte and ["longpass1"] again to an
    account whose password is ["longpass1"]. *)
Lemma password_check_reads_72_bytes :
  fst (Signup bcrypt72.impl Sample.env0
         (mkSignupParams "a@x.com" bcrypt72.p72) sqldb.empty)
  = inl (mkSignupResponse Sample.K0)
  /\ bcrypt72.p72 ++ "X" <> bcrypt72.p72
  /\ fst (Login bcrypt72.impl Sample.env0
            (mkLoginParams "a@x.com" (bcrypt72.p72 ++ "X"))
            (snd (Signup bcrypt72.impl Sample.env0
                    (mkSignupParams "a@x.com" bcrypt72.p72) sqldb.empty)))
     = inl (mkLoginResponse Sample.K0)
  /\ fst (Signup bcrypt72.impl Sample.env0 Sample.alice sqldb.empty)
     = inl (mkSignupResponse Sample.K0)
  /\ "longpass1" ++ String Ascii.zero "longpass1" <> "longpass1"
  /\ fst (Login bcrypt72.impl Sample.env0
            (mkLoginParams "a@x.com"
               ("longpass1" ++ String Ascii.zero "longpass1"))
            (snd (Signup bcrypt72.impl Sample.env0 Sample.alice
                    sqldb.empty)))
     = inl (mkLoginResponse Sample.K0).
Proof.
  split; [reflexivity|]. split; [discriminate|].
  split; [reflexivity|]. split; [reflexivity|].
  split; [discriminate | reflexivity].
Qed.

(** ** The life of one account, end to end

    Signup, a second signup on the same email, login, rotation, and the two
    verifications that follow, run on the stand-in. *)
Example account_lifecycle :
  let B := fakebcrypt.impl in
  let s1 := Signup B Sample.env0 Sample.alice sqldb.empty in
  let s2 :=
    Signup B Sample.env1 (mkSignupParams "a@x.com" "other12345") (snd s1) in
  let l := Login B Sample.env0 (mkLoginParams "a@x.com" "longpass1") (snd s2) in
  let r := RegenerateKey (Sample.as_user "a@x.com" Sample.env1) (snd l) in
  fst s1 = inl (mkSignupResponse Sample.K0)
  /\ fst s2 = fail errs.AlreadyExists "email already registered"
  /\ fst l = inl (mkLoginResponse Sample.K0)
  /\ fst r = inl (mkRegenerateKeyResponse Sample.K1)
  /\ fst (AuthHandler Sample.env0 Sample.K0 (snd r))
     = fail errs.Unauthenticated "invalid API key"
  /\ fst (AuthHandler Sample.env0 Sample.K1 (snd r)) = inl "a@x.com".
Proof. repeat split. Qed.

(** * Further properties of the endpoints *)

(** ** Validation *)

Lemma Contains_at_cons (c : ascii) (s : string) :
  strings.Contains (String c s) "@"
  = (if ascii_dec "@" c then true else false) || strings.Contains s "@".
Proof.
  cbn [strings.Contains String.prefix].
  destruct (ascii_dec "@" c); [|reflexivity]. now destruct s.
Qed.

Lemma Contains_at (s : string) :
  strings.Contains s "@" = true <-> In "@"%char (list_ascii_of_string s).
Proof.
  induction s as [|c s IH].
  - split; [discriminate | intros []].
  - rewrite Contains_at_cons. cbn [list_ascii_of_string In].
    destruct (ascii_dec "@" c) as [E|N]; cbn [orb].
    + split; auto.
    + rewrite IH. split; [tauto|]. intros [E|H]; [|exact H].
      elim N. now symmetry.
Qed.

(** X1.  [Signup] answers [InvalidArgument] exactly when the email holds no
    ["@"] byte or the password is shorter than 8 bytes (the two tests for
    the empty string add nothing), and it then returns the database as it
    received it, without a statement. *)
Theorem Signup_validation
    (B : bcrypt.Impl) (env : Env) (p : SignupParams) (db : DB) :
  (failed_with errs.InvalidArgument (fst (Signup B env p db)) = true
   <-> (~ In "@"%char (list_ascii_of_string (sp_Email p))
        \/ String.length (sp_Password p) < 8))
  /\ (failed_with errs.InvalidArgument (fst (Signup B env p db)) = true ->
      snd (Signup B env p db) = db).
Proof.
  destruct (strings.Contains (sp_Email p) "@") eqn:Hat.
  - destruct (Nat.ltb_spec (String.length (sp_Password p)) 8) as [L|L].
    + assert (S : Signup B env p db
                  = (fail errs.InvalidArgument
                       "password must be at least 8 characters", db)).
      { unfold Signup. rewrite Hat. apply Nat.ltb_lt in L. rewrite L.
        rewrite orb_true_r.
        destruct (String.eqb_spec (sp_Email p) "") as [E|_]; [|reflexivity].
        rewrite E in Hat. discriminate. }
      rewrite S. simpl. split; [|reflexivity]. split; auto.
    + rewrite (Signup_validated B env p db Hat L).
      assert (Q : ~ (~ In "@"%char (list_ascii_of_string (sp_Email p))
                     \/ String.length (sp_Password p) < 8)).
      { intros [H|H]; [|lia]. apply H. now apply Contains_at. }
      destruct (bcrypt.GenerateFromPassword B _ _ _); simpl;
        [|split; [split; [discriminate | tauto] | discriminate]].
      destruct (generateAPIKey _); simpl;
        [|split; [split; [discriminate | tauto] | discriminate]].
      destruct (exec_insert _ _ _ _ _) as [[r|e] db']; simpl;
        [|split; [split; [discriminate | tauto] | discriminate]].
      destruct (RowsAffected r =? 0)%Z; simpl;
        split; try discriminate; split; try discriminate; tauto.
  - assert (S : Signup B env p db
                = (fail errs.InvalidArgument "valid email is required", db)).
    { unfold Signup. rewrite Hat. simpl. now rewrite orb_true_r. }
    rewrite S. simpl. split; [|reflexivity]. split; auto.
    intros _. left. intros H. apply Contains_at in H. congruence.
Qed.

Lemma Signup_validation_witness :
  failed_with errs.InvalidArgument
    (fst (Signup fakebcrypt.impl Sample.env0
            (mkSignupParams "a.x.com" "longpass1") Sample.db1)) = true
  /\ snd (Signup fakebcrypt.impl Sample.env0
            (mkSignupParams "a.x.com" "longpass1") Sample.db1) = Sample.db1.
Proof.
  destruct (Signup_validation fakebcrypt.impl Sample.env0
              (mkSignupParams "a.x.com" "longpass1") Sample.db1) as [I K].
  assert (F : failed_with errs.InvalidArgument
                (fst (Signup fakebcrypt.impl Sample.env0
                        (mkSignupParams "a.x.com" "longpass1") Sample.db1))
              = true).
  { apply I. left. simpl. intros H.
    repeat (destruct H as [H|H]; [discriminate|]). exact H. }
  split; [exact F | exact (K F)].
Defined.

(** X2.  [Login] answers [InvalidArgument] exactly when the email or the
    password is empty, and then leaves the database without a statement;
    with both present it sends exactly one statement, the lookup by that
    email. *)
Theorem Login_validation
    (B : bcrypt.Impl) (env : Env) (p : LoginParams) (db : DB) :
  (failed_with errs.InvalidArgument (fst (Login B env p db)) = true
   <-> (lp_Email p = "" \/ lp_Password p = ""))
  /\ (lp_Email p = "" \/ lp_Password p = "" -> snd (Login B env p db) = db)
  /\ (lp_Email p <> "" -> lp_Password p <> "" ->
      snd (Login B env p db) = log (SelectByEmail (lp_Email p)) db).
Proof.
  unfold Login, query_by_email.
  destruct (String.eqb_spec (lp_Email p) "") as [E|E];
    [simpl; repeat split; auto; tauto|].
  destruct (String.eqb_spec (lp_Password p) "") as [P|P];
    [simpl; repeat split; auto; tauto|].
  simpl.
  destruct (db_fault env); simpl.
  - repeat split; try discriminate; tauto.
  - destruct (find _ _); simpl; [destruct (negb _); simpl|];
      repeat split; try discriminate; tauto.
Qed.

Lemma Login_validation_witness :
  failed_with errs.InvalidArgument
    (fst (Login fakebcrypt.impl Sample.env0
            (mkLoginParams "a@x.com" "") Sample.db1)) = true
  /\ snd (Login fakebcrypt.impl Sample.env0
            (mkLoginParams "a@x.com" "") Sample.db1) = Sample.db1
  /\ snd (Login fakebcrypt.impl Sample.env0
            (mkLoginParams "a@x.com" "longpass1") Sample.db1)
     = log (SelectByEmail "a@x.com") Sample.db1.
Proof.
  split; [|split].
  - apply (Login_validation fakebcrypt.impl Sample.env0
             (mkLoginParams "a@x.com" "") Sample.db1). now right.
  - apply (Login_validation fakebcrypt.impl Sample.env0
             (mkLoginParams "a@x.com" "") Sample.db1). now right.
  - apply (Login_validation fakebcrypt.impl Sample.env0
             (mkLoginParams "a@x.com" "longpass1") Sample.db1);
      discriminate.
Defined.

(** ** Signup followed by verification and login *)

Lemma existsb_false_find (A : Type) (f : A -> bool) (l : list A) :
  existsb f l = false -> find f l = None.
Proof.
  induction l as [|a l IH]; simpl; [reflexivity|].
  destruct (f a); [discriminate | exact IH].
Qed.

Lemma existsb_false_find_conv (A : Type) (f : A -> bool) (l : list A) :
  (forall x, In x l -> f x = false) -> existsb f l = false.
Proof.
  induction l as [|a l IH]; intros H; simpl; [reflexivity|].
  rewrite (H a (or_introl eq_refl)). apply IH. intros x Hx. apply H.
  now right.
Qed.

(** X3.  The key a successful [Signup] hands out is immediately valid:
    [AuthHandler], its lookup going through, resolves it to the email that
    signed up. *)
Theorem Signup_key_authenticates
    (B : bcrypt.Impl) (env env' : Env) (p : SignupParams) (db : DB)
    (resp : SignupResponse) :
  fst (Signup B env p db) = inl resp ->
  db_fault env' = None ->
  fst (AuthHandler env' (sr_APIKey resp) (snd (Signup B env p db)))
  = inl (sp_Email p).
Proof.
  intros S Hf.
  apply Signup_success_inv in S as (h & _ & Hgen & _ & Ek & U & _).
  destruct (generated_key_well_formed _ _ Hgen) as [Hp Hl].
  unfold AuthHandler, query_by_api_key. rewrite Hp, Hl, Hf. simpl.
  rewrite U, find_app_none by now apply existsb_false_find.
  simpl. unfold has_api_key. simpl. now rewrite String.eqb_refl.
Qed.

Lemma Signup_key_authenticates_witness :
  fst (AuthHandler Sample.env1 Sample.K0
         (snd (Signup fakebcrypt.impl Sample.env0 Sample.alice sqldb.empty)))
  = inl "a@x.com".
Proof.
  apply (Signup_key_authenticates fakebcrypt.impl Sample.env0 Sample.env1
           Sample.alice sqldb.empty (mkSignupResponse Sample.K0));
    reflexivity.
Defined.

(** X4.  With a bcrypt that accepts a hash for the password it was made
    from, a [Login] with the email and password of a successful [Signup],
    made right after it with the lookup going through, returns the very
    key that [Signup] returned. *)
Theorem Signup_then_Login
    (B : bcrypt.Impl) (env env' : Env) (p : SignupParams) (db : DB)
    (resp : SignupResponse) :
  bcrypt.accepts_own B ->
  fst (Signup B env p db) = inl resp ->
  db_fault env' = None ->
  fst (Login B env' (mkLoginParams (sp_Email p) (sp_Password p))
         (snd (Signup B env p db)))
  = inl (mkLoginResponse (sr_APIKey resp)).
Proof.
  intros HB S Hf.
  apply Signup_success_inv in S as (h & G & _ & Ee & _ & U & NE & L).
  assert (NP : sp_Password p <> "").
  { intros E. rewrite E in L. simpl in L. lia. }
  rewrite (Login_found B env' (mkLoginParams (sp_Email p) (sp_Password p))
             (snd (Signup B env p db))
             (mkUser (users_id_seq db) (sp_Email p) h (sr_APIKey resp))
             NE NP Hf).
  - simpl.
    assert (bcrypt.CompareHashAndPassword B h (sp_Password p) = true) as ->;
      [|reflexivity].
    exact (HB _ _ _ _ G).
  - rewrite U, find_app_none by now apply existsb_false_find.
    simpl. unfold has_email. simpl. now rewrite String.eqb_refl.
Qed.

Lemma Signup_then_Login_witness :
  fst (Login fakebcrypt.impl Sample.env1
         (mkLoginParams "a@x.com" "longpass1")
         (snd (Signup fakebcrypt.impl Sample.env0 Sample.alice sqldb.empty)))
  = inl (mkLoginResponse Sample.K0).
Proof.
  apply (Signup_then_Login fakebcrypt.impl Sample.env0 Sample.env1
           Sample.alice sqldb.empty (mkSignupResponse Sample.K0)).
  - exact fakebcrypt_accepts_own.
  - reflexivity.
  - reflexivity.
Defined.

(** X5.  [Signup] is all or nothing.  When it fails, for whatever reason,
    the rows are those from before.  When it succeeds it has appended
    exactly one row, carrying the request's email, the next id of the
    sequence and the key it returns, and neither that email nor that key
    was in the table before. *)
Theorem Signup_all_or_nothing
    (B : bcrypt.Impl) (env : Env) (p : SignupParams) (db : DB) :
  match fst (Signup B env p db) with
  | inl resp =>
      (exists h,
         users (snd (Signup B env p db))
         = (users db
              ++ [mkUser (users_id_seq db) (sp_Email p) h (sr_APIKey resp)])%list)
      /\ Forall (fun u => Email u <> sp_Email p
                          /\ APIKey u <> sr_APIKey resp) (users db)
  | inr _ => users (snd (Signup B env p db)) = users db
  end.
Proof.
  destruct (fst (Signup B env p db)) as [resp|e] eqn:S.
  - apply Signup_success_inv in S as (h & _ & _ & Ee & Ek & U & _).
    split; [now exists h|].
    apply Forall_forall. intros u Hu. split; intros E.
    + assert (existsb (has_email (sp_Email p)) (users db) = true).
      { apply existsb_exists. exists u. split; [exact Hu|].
        now apply has_email_true. }
      congruence.
    + assert (existsb (has_api_key (sr_APIKey resp)) (users db) = true).
      { apply existsb_exists. exists u. split; [exact Hu|].
        now apply has_api_key_true. }
      congruence.
  - apply Signup_failure_keeps_rows. now rewrite S.
Qed.

(** ** Rotation *)

(** X6.  Rotation does not disturb the password: a [Login] that succeeded
    before the caller's [RegenerateKey] succeeds with the same parameters
    after it, and now returns the new key. *)
Theorem Login_after_rotation
    (B : bcrypt.Impl) (envL env : Env) (p : LoginParams) (db : DB)
    (before : LoginResponse) (resp : RegenerateKeyResponse) :
  fst (Login B envL p db) = inl before ->
  auth_UserID env = Some (lp_Email p) ->
  fst (RegenerateKey env db) = inl resp ->
  fst (Login B envL p (snd (RegenerateKey env db)))
  = inl (mkLoginResponse (NewAPIKey resp)).
Proof.
  intros L Hu R.
  apply Login_success_inv in L as (u & F & C & _ & NE & NP & Hf).
  pose proof (find_some _ _ F) as [Hin He]. apply has_email_true in He.
  rewrite <- He in Hu.
  destruct (RegenerateKey_success_inv env db u resp Hin Hu R)
    as (_ & U & _).
  rewrite (Login_found B envL p _
             (set_api_key (NewAPIKey resp) (Email u) u) NE NP Hf).
  - rewrite set_api_key_Password, C, set_api_key_APIKey.
    unfold has_email. now rewrite String.eqb_refl.
  - rewrite U, find_after_update, F, He. reflexivity.
Qed.

Lemma Login_after_rotation_witness :
  fst (Login fakebcrypt.impl Sample.env0
         (mkLoginParams "a@x.com" "longpass1")
         (snd (RegenerateKey (Sample.as_user "a@x.com" Sample.env1)
                 Sample.db1)))
  = inl (mkLoginResponse Sample.K1).
Proof.
  apply (Login_after_rotation fakebcrypt.impl Sample.env0
           (Sample.as_user "a@x.com" Sample.env1)
           (mkLoginParams "a@x.com" "longpass1") Sample.db1
           (mkLoginResponse Sample.K0) (mkRegenerateKeyResponse Sample.K1));
    reflexivity.
Defined.

Lemma fixed_columns_set_api_key (k e : string) (l : list User) :
  map fixed_columns (map (set_api_key k e) l) = map fixed_columns l.
Proof.
  induction l as [|a l IH]; simpl; [reflexivity|]. rewrite IH. f_equal.
  unfold fixed_columns, set_api_key. now destruct (has_email e a).
Qed.

(** X7.  [RegenerateKey] writes column [api_key] of the caller's rows and
    nothing else: the id, email and password hash of every row, the number
    and order of rows and the id sequence are as before, and a row whose
    email is not the caller's identity is still in the table unchanged. *)
Theorem RegenerateKey_frame (env : Env) (db : DB) :
  map fixed_columns (users (snd (RegenerateKey env db)))
  = map fixed_columns (users db)
  /\ users_id_seq (snd (RegenerateKey env db)) = users_id_seq db
  /\ (forall v, In v (users db) ->
                auth_UserID env <> Some (Email v) ->
                In v (users (snd (RegenerateKey env db)))).
Proof.
  unfold RegenerateKey, exec_update.
  destruct (auth_UserID env) as [uid|]; [|now repeat split].
  destruct (generateAPIKey _) as [k|]; [|now repeat split].
  destruct (db_fault env); [now repeat split|]. simpl.
  destruct (filter (has_email uid) (users db)) as [|m more];
    [now repeat split|].
  destruct (_ || _); [now repeat split|]. simpl.
  split; [apply fixed_columns_set_api_key|]. split; [reflexivity|].
  intros v Hv Hne. apply in_map_iff. exists v. split; [|exact Hv].
  unfold set_api_key.
  assert (has_email uid v = false) as ->; [|reflexivity].
  apply String.eqb_neq. congruence.
Qed.

Lemma RegenerateKey_frame_witness :
  In TwoAccounts.bob_row
    (users (snd (RegenerateKey (Sample.as_user "a@x.com" Sample.env0)
                   TwoAccounts.db2))).
Proof.
  apply (RegenerateKey_frame (Sample.as_user "a@x.com" Sample.env0)
           TwoAccounts.db2).
  - simpl. right. now left.
  - discriminate.
Defined.

(** X8.  A rotation whose fresh key is already the key of another account
    is refused: with a row stored for the caller and the new key held by a
    row of a different email, [RegenerateKey] fails with [Internal],
    ["failed to update key"], and changes no row. *)
Theorem RegenerateKey_key_taken
    (env : Env) (db : DB) (u v : User) (k : string) :
  auth_UserID env = Some (Email u) ->
  generateAPIKey (rand_Reader env) = inl k ->
  In u (users db) -> In v (users db) ->
  Email v <> Email u -> APIKey v = k ->
  fst (RegenerateKey env db) = fail errs.Internal "failed to update key"
  /\ users (snd (RegenerateKey env db)) = users db.
Proof.
  intros Hu Hk Iu Iv Ne Kv. unfold RegenerateKey, exec_update.
  rewrite Hu, Hk. destruct (db_fault env); [now split|]. simpl.
  destruct (filter (has_email (Email u)) (users db)) as [|m more] eqn:F.
  - exfalso.
    assert (I : In u (filter (has_email (Email u)) (users db))).
    { apply filter_In. split; [exact Iu|]. now apply has_email_true. }
    rewrite F in I. exact I.
  - assert (X : existsb (has_api_key k)
                  (filter (fun x => negb (has_email (Email u) x)) (users db))
                = true).
    { apply existsb_exists. exists v. split.
      - apply filter_In. split; [exact Iv|].
        apply negb_true_iff. now apply String.eqb_neq.
      - now apply has_api_key_true. }
    rewrite X. now split.
Qed.

Lemma RegenerateKey_key_taken_witness :
  fst (RegenerateKey (Sample.as_user "a@x.com" Sample.env1) TwoAccounts.db2)
  = fail errs.Internal "failed to update key"
  /\ users (snd (RegenerateKey (Sample.as_user "a@x.com" Sample.env1)
                   TwoAccounts.db2))
     = users TwoAccounts.db2.
Proof.
  apply (RegenerateKey_key_taken (Sample.as_user "a@x.com" Sample.env1)
           TwoAccounts.db2 TwoAccounts.alice_row TwoAccounts.bob_row
           Sample.K1).
  - reflexivity.
  - reflexivity.
  - simpl. now left.
  - simpl. right. now left.
  - discriminate.
  - reflexivity.
Defined.

Lemma filter_none (A : Type) (f : A -> bool) (l : list A) :
  (forall x, In x l -> f x = false) -> filter f l = [].
Proof.
  induction l as [|a l IH]; intros H; simpl; [reflexivity|].
  rewrite (H a (or_introl eq_refl)). apply IH. intros x Hx. apply H.
  now right.
Qed.

(** With unique emails, the rows an update by email matches are one row. *)
Lemma filter_unique_email (l : list User) (u : User) :
  NoDup (map Email l) -> In u l -> filter (has_email (Email u)) l = [u].
Proof.
  induction l as [|a l IH]; intros ND Iu; [contradiction|].
  simpl in ND. inversion ND as [|? ? Ha ND']; subst. simpl.
  destruct Iu as [->|Iu].
  - unfold has_email at 1. rewrite String.eqb_refl. f_equal.
    apply filter_none. intros x Hx. apply String.eqb_neq. intros E.
    apply Ha. rewrite <- E. now apply in_map.
  - assert (has_email (Email u) a = false) as ->.
    { apply String.eqb_neq. intros E. apply Ha. rewrite E.
      now apply in_map. }
    now apply IH.
Qed.

(** X9.  A caller whom [AuthHandler] has just resolved can always rotate:
    in a table that satisfies the schema, with the resolved identity
    attached, a generated key that no row holds and the statement reaching
    the database, [RegenerateKey] succeeds and the caller's row carries the
    new key afterwards. *)
Theorem authenticated_rotation_succeeds
    (envA env : Env) (db : DB) (token id k : string) :
  schema_ok db ->
  fst (AuthHandler envA token db) = inl id ->
  auth_UserID env = Some id ->
  generateAPIKey (rand_Reader env) = inl k ->
  db_fault env = None ->
  (forall v, In v (users db) -> APIKey v <> k) ->
  fst (RegenerateKey env db) = inl (mkRegenerateKeyResponse k)
  /\ exists u, In u (users (snd (RegenerateKey env db)))
               /\ Email u = id /\ APIKey u = k.
Proof.
  intros Hok A Hu Hk Hf Hfresh.
  apply AuthHandler_success_inv in A as (u & Iu & _ & Eu).
  assert (F : filter (has_email id) (users db) = [u]).
  { rewrite <- Eu. apply filter_unique_email; [apply Hok | exact Iu]. }
  assert (X : existsb (has_api_key k)
                (filter (fun x => negb (has_email id x)) (users db))
              = false).
  { apply existsb_false_find_conv. intros x Hx.
    apply filter_In in Hx as [Hx _].
    apply String.eqb_neq. now apply Hfresh. }
  unfold RegenerateKey, exec_update. rewrite Hu, Hk, Hf. simpl.
  rewrite F, X. simpl. split; [reflexivity|].
  exists (set_api_key k id u). split; [now apply in_map|].
  rewrite set_api_key_Email, set_api_key_APIKey. split; [exact Eu|].
  unfold has_email. rewrite Eu. now rewrite String.eqb_refl.
Qed.

Lemma authenticated_rotation_succeeds_witness :
  fst (RegenerateKey (Sample.as_user "a@x.com" Sample.env1) Sample.db1)
  = inl (mkRegenerateKeyResponse Sample.K1)
  /\ exists u,
       In u (users (snd (RegenerateKey (Sample.as_user "a@x.com" Sample.env1)
                           Sample.db1)))
       /\ Email u = "a@x.com" /\ APIKey u = Sample.K1.
Proof.
  apply (authenticated_rotation_succeeds Sample.env0
           (Sample.as_user "a@x.com" Sample.env1) Sample.db1
           Sample.K0 "a@x.com" Sample.K1); try reflexivity.
  - split; simpl; repeat constructor; simpl; tauto.
  - simpl. intros v [<-|[]]. discriminate.
Defined.

(** ** What holds after any sequence of requests *)

Section Histories.

Variable B : bcrypt.Impl.

Lemma serve_fixed_columns (c : Env * Request) (db : DB) :
  exists added,
    map fixed_columns (users (serve B c db))
    = (map fixed_columns (users db) ++ added)%list.
Proof.
  destruct c as [env [p|p| |k|p]]; simpl.
  - destruct (Signup_users B env p db) as [U|(h & k & _ & _ & U)];
      rewrite U.
    + exists []. now rewrite app_nil_r.
    + rewrite map_app. eexists. reflexivity.
  - rewrite (proj1 (Login_users B env p db)).
    exists []. now rewrite app_nil_r.
  - destruct (RegenerateKey_users env db) as [U|(uid & k & _ & _ & U & _)];
      rewrite U; exists []; rewrite app_nil_r; [reflexivity|].
    apply fixed_columns_set_api_key.
  - rewrite AuthHandler_users. exists []. now rewrite app_nil_r.
  - rewrite Protected_db. exists []. now rewrite app_nil_r.
Qed.

(** X10.  Accounts are only ever added.  Whatever requests are served, the
    rows present at the start are still there, in the same order and with
    the same id, email and password hash; anything new comes after them. *)
Theorem rows_append_only (calls : list (Env * Request)) (db : DB) :
  exists added,
    map fixed_columns (users (run B calls db))
    = (map fixed_columns (users db) ++ added)%list.
Proof.
  revert db. induction calls as [|c calls IH]; intros db; simpl.
  - exists []. now rewrite app_nil_r.
  - destruct (IH (serve B c db)) as [a2 E2].
    destruct (serve_fixed_columns c db) as [a1 E1].
    exists (a1 ++ a2)%list. fold (run B calls (serve B c db)).
    now rewrite E2, E1, app_assoc.
Qed.

Lemma Signup_stored_hash (env : Env) (p : SignupParams) (db : DB)
    (resp : SignupResponse) :
  fst (Signup B env p db) = inl resp ->
  exists h, stored_hash (sp_Email p) (snd (Signup B env p db)) = Some h.
Proof.
  intros S. apply Signup_success_inv in S as (h & _ & _ & Ee & _ & U & _).
  exists h. unfold stored_hash.
  rewrite U, find_app_none by now apply existsb_false_find.
  simpl. unfold has_email. simpl. now rewrite String.eqb_refl.
Qed.

(** X11.  An email, once registered, stays taken: after a successful
    [Signup] and any requests served since, no [Signup] for the same email
    succeeds, and such an attempt leaves every row as it was. *)
Theorem email_stays_registered
    (env env' : Env) (p p' : SignupParams) (db0 : DB)
    (resp : SignupResponse) (calls : list (Env * Request)) :
  fst (Signup B env p db0) = inl resp ->
  sp_Email p' = sp_Email p ->
  succeeded
    (fst (Signup B env' p' (run B calls (snd (Signup B env p db0)))))
  = false
  /\ users (snd (Signup B env' p' (run B calls (snd (Signup B env p db0)))))
     = users (run B calls (snd (Signup B env p db0))).
Proof.
  intros S E. destruct (Signup_stored_hash env p db0 resp S) as [h H].
  apply (run_stored_hash B calls) in H. unfold stored_hash in H.
  destruct (find _ _) as [u|] eqn:F; [|discriminate].
  apply find_some in F as [Hin He].
  assert (X : succeeded
                (fst (Signup B env' p'
                        (run B calls (snd (Signup B env p db0))))) = false).
  { destruct (fst (Signup B env' p' _)) as [r|] eqn:S'; [|reflexivity].
    apply Signup_success_inv in S' as (_ & _ & _ & Ee & _).
    rewrite E in Ee.
    assert (existsb (has_email (sp_Email p))
              (users (run B calls (snd (Signup B env p db0)))) = true).
    { apply existsb_exists. now exists u. }
    congruence. }
  split; [exact X | now apply Signup_failure_keeps_rows].
Qed.

Lemma Signup_success_email (env : Env) (p : SignupParams) (db : DB)
    (resp : SignupResponse) :
  fst (Signup B env p db) = inl resp ->
  strings.Contains (sp_Email p) "@" = true.
Proof.
  unfold Signup. destruct (strings.Contains (sp_Email p) "@");
    [reflexivity|].
  simpl. rewrite orb_true_r. discriminate.
Qed.

Lemma RegenerateKey_key_generated (env : Env) (db : DB)
    (resp : RegenerateKeyResponse) :
  fst (RegenerateKey env db) = inl resp ->
  generateAPIKey (rand_Reader env) = inl (NewAPIKey resp).
Proof.
  unfold RegenerateKey.
  destruct (auth_UserID env); [|discriminate].
  destruct (generateAPIKey _) as [k|]; [|discriminate].
  destruct (exec_update _ _ _ _) as [[r|e] db']; simpl; [|discriminate].
  now intros [= <-].
Qed.

Lemma serve_rows_ok (c : Env * Request) (db : DB) :
  Forall row_ok (users db) -> Forall row_ok (users (serve B c db)).
Proof.
  intros H. destruct c as [env [p|p| |k|p]]; simpl.
  - destruct (fst (Signup B env p db)) as [resp|e] eqn:S.
    + pose proof (Signup_success_email env p db resp S) as Hat.
      apply Signup_success_inv in S as (h & _ & G & _ & _ & U & _).
      rewrite U. apply Forall_app. split; [exact H|].
      constructor; [|constructor]. split; simpl; [|exact Hat].
      exact (generated_key_well_formed _ _ G).
    + rewrite Signup_failure_keeps_rows; [exact H | now rewrite S].
  - now rewrite (proj1 (Login_users B env p db)).
  - destruct (RegenerateKey_users env db) as [U|(uid & k & _ & R & U & _)];
      rewrite U; [exact H|].
    apply RegenerateKey_key_generated in R. simpl in R.
    apply generated_key_well_formed in R.
    apply Forall_forall. intros v' Hv'.
    apply in_map_iff in Hv' as (v & <- & Hv).
    rewrite Forall_forall in H. destruct (H v Hv) as [Kv Ev].
    unfold row_ok. rewrite set_api_key_Email, set_api_key_APIKey.
    split; [|exact Ev]. now destruct (has_email uid v).
  - now rewrite AuthHandler_users.
  - now rewrite Protected_db.
Qed.

Lemma run_rows_ok (calls : list (Env * Request)) (db : DB) :
  Forall row_ok (users db) -> Forall row_ok (users (run B calls db)).
Proof.
  revert db. induction calls as [|c calls IH]; intros db H; simpl; auto.
  apply IH. now apply serve_rows_ok.
Qed.

(** X13.  Starting from an empty table, every row the service ever holds
    has an API key in the generated format (prefix ["esk_"], 36 bytes) and
    an email containing ["@"]. *)
Theorem reachable_rows_well_formed (calls : list (Env * Request)) :
  Forall row_ok (users (run B calls sqldb.empty)).
Proof. apply run_rows_ok. constructor. Qed.

(** X14.  Every account can authenticate with the key on record: in any
    table reached from the empty one, [AuthHandler] given the stored key of
    a row, its lookup going through, returns that row's email. *)
Theorem stored_keys_authenticate
    (calls : list (Env * Request)) (env : Env) (u : User) :
  In u (users (run B calls sqldb.empty)) ->
  db_fault env = None ->
  fst (AuthHandler env (APIKey u) (run B calls sqldb.empty)) = inl (Email u).
Proof.
  intros Hin Hf.
  assert (Hok : schema_ok (run B calls sqldb.empty)).
  { apply run_schema_ok. split; constructor. }
  assert (Hrows : Forall row_ok (users (run B calls sqldb.empty))).
  { apply run_rows_ok. constructor. }
  rewrite Forall_forall in Hrows. destruct (Hrows u Hin) as [[Hp Hl] _].
  apply AuthHandler_resolves; auto. lia.
Qed.

End Histories.

Lemma email_stays_registered_witness :
  succeeded
    (fst (Signup fakebcrypt.impl Sample.env1
            (mkSignupParams "a@x.com" "other12345")
            (run fakebcrypt.impl
               [(Sample.as_user "a@x.com" Sample.env1, ReqRegenerateKey)]
               (snd (Signup fakebcrypt.impl Sample.env0 Sample.alice
                       sqldb.empty)))))
  = false.
Proof.
  apply (email_stays_registered fakebcrypt.impl Sample.env0 Sample.env1
           Sample.alice (mkSignupParams "a@x.com" "other12345")
           sqldb.empty (mkSignupResponse Sample.K0)
           [(Sample.as_user "a@x.com" Sample.env1, ReqRegenerateKey)]);
    reflexivity.
Defined.

Lemma stored_keys_authenticate_witness :
  fst (AuthHandler Sample.env0 Sample.K1
         (run fakebcrypt.impl
            [(Sample.env0, ReqSignup Sample.alice);
             (Sample.env1, ReqSignup TwoAccounts.bob)] sqldb.empty))
  = inl "b@x.com".
Proof.
  apply (stored_keys_authenticate fakebcrypt.impl
           [(Sample.env0, ReqSignup Sample.alice);
            (Sample.env1, ReqSignup TwoAccounts.bob)]
           Sample.env0 TwoAccounts.bob_row).
  - simpl. right. now left.
  - reflexivity.
Defined.

(** ** Statements and errors *)

(** X15.  Serving one request sends at most one statement to the database,
    of the one kind that endpoint uses: [Signup] an insert for its email,
    [Login] a lookup by its email, [RegenerateKey] an update for the
    attached identity, [AuthHandler] a lookup by the presented token, and
    [Protected] nothing. *)
Theorem one_statement_per_request
    (B : bcrypt.Impl) (env : Env) (r : Request) (db : DB) :
  match r with
  | ReqSignup p =>
      trace (serve B (env, r) db) = trace db
      \/ exists h k,
           trace (serve B (env, r) db)
           = InsertUser (sp_Email p) h k :: trace db
  | ReqLogin p =>
      trace (serve B (env, r) db) = trace db
      \/ trace (serve B (env, r) db) = SelectByEmail (lp_Email p) :: trace db
  | ReqRegenerateKey =>
      trace (serve B (env, r) db) = trace db
      \/ exists k uid,
           auth_UserID env = Some uid
           /\ trace (serve B (env, r) db) = UpdateAPIKey k uid :: trace db
  | ReqAuthHandler token =>
      trace (serve B (env, r) db) = trace db
      \/ trace (serve B (env, r) db) = SelectByAPIKey token :: trace db
  | ReqProtected _ => trace (serve B (env, r) db) = trace db
  end.
Proof.
  destruct r as [p|p| |k|p]; simpl.
  - unfold Signup, exec_insert.
    destruct (_ || _); [now left|]. destruct (_ || _); [now left|].
    destruct (bcrypt.GenerateFromPassword B _ _ _) as [h|]; [|now left].
    destruct (generateAPIKey _) as [k|]; [|now left].
    right. exists h, k.
    destruct (db_fault env); [reflexivity|]. simpl.
    destruct (existsb (has_email _) _); [reflexivity|].
    now destruct (existsb (has_api_key _) _).
  - unfold Login, query_by_email. destruct (_ || _); [now left|]. right.
    destruct (db_fault env); [reflexivity|]. simpl.
    destruct (find _ _); [|reflexivity]. now destruct (negb _).
  - unfold RegenerateKey, exec_update.
    destruct (auth_UserID env) as [uid|]; [|now left].
    destruct (generateAPIKey _) as [k|]; [|now left].
    right. exists k, uid. split; [reflexivity|].
    destruct (db_fault env); [reflexivity|]. simpl.
    destruct (filter _ _); [reflexivity|]. now destruct (_ || _).
  - unfold AuthHandler, query_by_api_key. destruct (_ || _); [now left|].
    right. destruct (db_fault env); [reflexivity|]. simpl.
    now destruct (find _ _).
  - now rewrite Protected_db.
Qed.

(** X16.  The error kinds each endpoint can return: [Signup] only
    [InvalidArgument], [Internal] or [AlreadyExists]; [Login] only
    [InvalidArgument] or [Unauthenticated]; [RegenerateKey] only
    [Unauthenticated] or [Internal]; [AuthHandler] only [Unauthenticated];
    [Protected] only [InvalidArgument] or [Unauthenticated]. *)
Theorem error_kinds (B : bcrypt.Impl) (env : Env) (db : DB) :
  (forall p,
     match fst (Signup B env p db) with
     | inl _ => True
     | inr e => In (errs.Code e)
                  [errs.InvalidArgument; errs.Internal; errs.AlreadyExists]
     end)
  /\ (forall p,
        match fst (Login B env p db) with
        | inl _ => True
        | inr e => In (errs.Code e)
                     [errs.InvalidArgument; errs.Unauthenticated]
        end)
  /\ match fst (RegenerateKey env db) with
     | inl _ => True
     | inr e => In (errs.Code e) [errs.Unauthenticated; errs.Internal]
     end
  /\ (forall token,
        match fst (AuthHandler env token db) with
        | inl _ => True
        | inr e => errs.Code e = errs.Unauthenticated
        end)
  /\ (forall p,
        match fst (Protected env p db) with
        | inl _ => True
        | inr e => In (errs.Code e)
                     [errs.InvalidArgument; errs.Unauthenticated]
        end).
Proof.
  split; [|split; [|split; [|split]]].
  - intros p. unfold Signup.
    destruct (_ || _); [simpl; tauto|]. destruct (_ || _); [simpl; tauto|].
    destruct (bcrypt.GenerateFromPassword B _ _ _); [|simpl; tauto].
    destruct (generateAPIKey _); [|simpl; tauto].
    destruct (exec_insert _ _ _ _ _) as [[r|e] db']; [|simpl; tauto].
    destruct (RowsAffected r =? 0)%Z; simpl; tauto.
  - intros p. unfold Login. destruct (_ || _); [simpl; tauto|].
    destruct (query_by_email _ _ _) as [[u|e] db']; [|simpl; tauto].
    destruct (negb _); simpl; tauto.
  - unfold RegenerateKey. destruct (auth_UserID env); [|simpl; tauto].
    destruct (generateAPIKey _); [|simpl; tauto].
    destruct (exec_update _ _ _ _) as [[r|e] db']; simpl; tauto.
  - intros token. unfold AuthHandler. destruct (_ || _); [reflexivity|].
    now destruct (query_by_api_key _ _ _) as [[u|e] db'].
  - intros p. unfold Protected. destruct (String.eqb _ _); [simpl; tauto|].
    destruct (auth_UserID env); simpl; tauto.
Qed.

(** X17.  A database failure is not told apart from a miss.  When the
    round trip fails, [Login] with both fields present answers
    [Unauthenticated], ["invalid credentials"], and [AuthHandler] with a
    well-formed token answers [Unauthenticated], ["invalid API key"], the
    answers given for an unknown email or key; [RegenerateKey] with an
    identity and a generated key answers [Internal],
    ["failed to update key"].  No row changes in any of the three. *)
Theorem store_failure_outcomes
    (B : bcrypt.Impl) (env : Env) (db : DB) (msg : string) :
  db_fault env = Some msg ->
  (forall p, lp_Email p <> "" -> lp_Password p <> "" ->
     fst (Login B env p db) = fail errs.Unauthenticated "invalid credentials"
     /\ users (snd (Login B env p db)) = users db)
  /\ (forall token,
        strings.HasPrefix token "esk_" = true -> 8 <= String.length token ->
        fst (AuthHandler env token db)
        = fail errs.Unauthenticated "invalid API key"
        /\ users (snd (AuthHandler env token db)) = users db)
  /\ (forall uid k,
        auth_UserID env = Some uid ->
        generateAPIKey (rand_Reader env) = inl k ->
        fst (RegenerateKey env db) = fail errs.Internal "failed to update key"
        /\ users (snd (RegenerateKey env db)) = users db).
Proof.
  intros Hf. split; [|split].
  - intros p NE NP. unfold Login, query_by_email.
    apply String.eqb_neq in NE, NP. rewrite NE, NP, Hf. now split.
  - intros token Hp Hl. unfold AuthHandler, query_by_api_key.
    apply Nat.ltb_ge in Hl. rewrite Hp, Hl, Hf. now split.
  - intros uid k Hu Hk. unfold RegenerateKey, exec_update.
    rewrite Hu, Hk, Hf. now split.
Qed.

Lemma store_failure_outcomes_witness :
  fst (Login fakebcrypt.impl
         (Sample.with_fault "connection reset by peer" Sample.env0)
         (mkLoginParams "a@x.com" "longpass1") Sample.db1)
  = fail errs.Unauthenticated "invalid credentials"
  /\ fst (AuthHandler
            (Sample.with_fault "connection reset by peer" Sample.env0)
            Sample.K0 Sample.db1)
     = fail errs.Unauthenticated "invalid API key".
Proof.
  destruct (store_failure_outcomes fakebcrypt.impl
              (Sample.with_fault "connection reset by peer" Sample.env0)
              Sample.db1 "connection reset by peer" eq_refl)
    as (HL & HA & _).
  split.
  - apply (HL (mkLoginParams "a@x.com" "longpass1")); discriminate.
  - apply (HA Sample.K0); [reflexivity | simpl; lia].
Defined.

(** ** The shape of generated keys *)

(** X18.  Key generation loses nothing of the random bytes: two calls of
    [generateAPIKey] return the same key only if [rand.Read] delivered the
    same 16 bytes to both. *)
Theorem generateAPIKey_injective (r1 r2 : Entropy) (k : string) :
  generateAPIKey r1 = inl k ->
  generateAPIKey r2 = inl k ->
  rand_Read r1 (repeat x00 16) = rand_Read r2 (repeat x00 16).
Proof.
  intros H1 H2.
  apply generateAPIKey_inv in H1 as (s1 & -> & E1).
  apply generateAPIKey_inv in H2 as (s2 & -> & E2).
  rewrite E1 in E2. apply (f_equal (skip 4)) in E2.
  change (hex.EncodeToString (map s1 (seq 0 16))
          = hex.EncodeToString (map s2 (seq 0 16))) in E2.
  apply (f_equal hex.DecodeString) in E2.
  rewrite !hex_roundtrip in E2. unfold rand_Read. exact E2.
Qed.

Lemma generateAPIKey_injective_witness :
  rand_Read Sample.zeros (repeat x00 16)
  = rand_Read (Some (fun n => if (n <? 16)%nat then x00 else Byte.xff))
      (repeat x00 16).
Proof.
  apply (generateAPIKey_injective Sample.zeros
           (Some (fun n => if (n <? 16)%nat then x00 else Byte.xff))
           Sample.K0); reflexivity.
Defined.

Lemma hexchar_nibbles (v : byte) :
  In (hex.hexchar (N.shiftr (Byte.to_N v) 4))
     (list_ascii_of_string hex.hextable)
  /\ In (hex.hexchar (N.land (Byte.to_N v) 15))
        (list_ascii_of_string hex.hextable).
Proof. destruct v; vm_compute; tauto. Qed.

Lemma EncodeToString_digits (bs : list byte) :
  Forall (fun c => In c (list_ascii_of_string hex.hextable))
    (list_ascii_of_string (hex.EncodeToString bs)).
Proof.
  induction bs as [|v bs IH]; [constructor|].
  destruct (hexchar_nibbles v) as [Hh Hl].
  cbn [hex.EncodeToString list_ascii_of_string].
  constructor; [exact Hh|]. constructor; [exact Hl | exact IH].
Qed.

(** X19.  Every generated key is ["esk_"] followed by exactly 32 characters
    drawn from [0123456789abcdef]: lower-case hex digits and nothing else. *)
Theorem generated_key_alphabet (r : Entropy) :
  match generateAPIKey r with
  | inl key =>
      exists digits,
        key = "esk_" ++ digits
        /\ String.length digits = 32
        /\ Forall (fun c => In c (list_ascii_of_string "0123456789abcdef"))
             (list_ascii_of_string digits)
  | inr _ => True
  end.
Proof.
  destruct (generateAPIKey r) as [key|] eqn:G; [|exact I].
  apply generateAPIKey_inv in G as (src & _ & ->).
  exists (hex.EncodeToString (map src (seq 0 16))). split; [reflexivity|].
  split.
  - now rewrite EncodeToString_length, length_map, length_seq.
  - apply EncodeToString_digits.
Qed.
